(** * Marketplace front end: listing browser and listing creator

    A shallow embedding of the two React components of the repository,
    [MarketplaceGrid] (the listing browser) and [CreateListingModal] (the
    listing creator), together with the fragments of the JavaScript run time
    they rely on: strings, numbers, [parseFloat], [parseInt] and
    [Array.prototype.sort].

    Conventions of the embedding.
    - A JavaScript string is a sequence of UTF-16 code units.  The strings
      the code lower-cases (titles, sellers, the search string) are kept as
      such, as [ustring]; the others, which the code compares, trims,
      slices and tests against ASCII classes, are kept as [string], its
      characters standing for the code units 0 to 255.
    - A JavaScript number is a [number]: NaN, the two infinities, or a finite
      binary64 value, kept as the integer [k] such that the value is
      [k * 2^-1074].  Every finite binary64 is such a multiple; the sign of a
      zero is not kept, since no operation used here observes it.
    - Component state is explicit, and calls into the collaborators (the
      notification library, the listing store, the parent's [onClose]) are
      recorded in a trace. *)

From Stdlib Require Import NArith ZArith Lia Bool List Ascii String.
From Stdlib Require Import Permutation Sorted.
Import ListNotations.

Local Open Scope string_scope.
Local Open Scope Z_scope.

(* ================================================================= *)
(** ** JavaScript strings *)

Module JsString.

(** Code units that [trim] and the number parsers skip: TAB, LF, VT, FF,
    CR, SPACE and the no-break space. *)
Definition isWhiteSpace (c : ascii) : bool :=
  let n := N_of_ascii c in
  ((9 <=? n) && (n <=? 13) || (n =? 32) || (n =? 160))%N.

(** [s.startsWith(p)] *)
Fixpoint startsWith (s p : string) {struct p} : bool :=
  match p, s with
  | EmptyString, _ => true
  | String _ _, EmptyString => false
  | String a p', String b s' => Ascii.eqb a b && startsWith s' p'
  end.

(** [s.slice(n)] for a non-negative [n]. *)
Fixpoint slice (n : nat) (s : string) : string :=
  match n, s with
  | O, _ => s
  | S _, EmptyString => EmptyString
  | S m, String _ r => slice m r
  end.

Fixpoint trimStart (s : string) : string :=
  match s with
  | EmptyString => EmptyString
  | String c r => if isWhiteSpace c then trimStart r else s
  end.

(** [trimEnd] drops the trailing white space: a character is kept when it
    is not white space or when something is kept after it. *)
Fixpoint trimEnd (s : string) : string :=
  match s with
  | EmptyString => EmptyString
  | String c r =>
      match trimEnd r with
      | EmptyString => if isWhiteSpace c then EmptyString
                       else String c EmptyString
      | r' => String c r'
      end
  end.

(** [s.trim()] *)
Definition trim (s : string) : string := trimEnd (trimStart s).

(** Truthiness of a string: every string but the empty one. *)
Definition truthy (s : string) : bool :=
  match s with EmptyString => false | String _ _ => true end.

Fixpoint forallb (p : ascii -> bool) (s : string) : bool :=
  match s with
  | EmptyString => true
  | String c r => p c && forallb p r
  end.

Definition isDigit (c : ascii) : bool :=
  let n := N_of_ascii c in ((48 <=? n) && (n <=? 57))%N.

(** The character class [[a-fA-F0-9]]. *)
Definition isHexDigit (c : ascii) : bool :=
  let n := N_of_ascii c in
  ((97 <=? n) && (n <=? 102) || (65 <=? n) && (n <=? 70)
   || (48 <=? n) && (n <=? 57))%N.

(** The longest prefix of [s] made of characters satisfying [p], and what
    follows it. *)
Fixpoint span (p : ascii -> bool) (s : string) : string * string :=
  match s with
  | EmptyString => (EmptyString, EmptyString)
  | String c r =>
      if p c then let '(a, b) := span p r in (String c a, b)
      else (EmptyString, s)
  end.

End JsString.

(* ================================================================= *)
(** ** JavaScript strings with their case (Unicode 14.0)

    The strings the code lower-cases, the titles, the sellers and the
    search string, are kept as they are in the language: sequences of
    UTF-16 code units.  [toLowerCase] follows ECMA-262: the string is read
    as code points, the Unicode default case conversion is applied (the
    lowercase mappings of the Unicode Character Database together with the
    language-insensitive entries of SpecialCasing: U+0130, and the capital
    sigma in final position), and the result is written back as code
    units. *)

Module JsUnicode.

Definition ustring : Type := list N.

(** The code units of a string whose characters are code units below
    256. *)
Definition units (s : string) : ustring :=
  map N_of_ascii (list_ascii_of_string s).

(** Lowercase mappings: the code points [first], [first + stride], ...,
    [last] map to [lower], [lower + stride], ... *)
Definition lowercaseRanges : list (N * N * N * N) :=
  [ (65, 90, 1, 97); (192, 214, 1, 224); (216, 222, 1, 248); (256, 302, 2,
    257); (306, 310, 2, 307); (313, 327, 2, 314); (330, 374, 2, 331); (376,
    376, 1, 255); (377, 381, 2, 378); (385, 385, 1, 595); (386, 388, 2, 387);
    (390, 390, 1, 596); (391, 391, 1, 392); (393, 394, 1, 598); (395, 395, 1,
    396); (398, 398, 1, 477); (399, 399, 1, 601); (400, 400, 1, 603); (401,
    401, 1, 402); (403, 403, 1, 608); (404, 404, 1, 611); (406, 406, 1, 617);
    (407, 407, 1, 616); (408, 408, 1, 409); (412, 412, 1, 623); (413, 413, 1,
    626); (415, 415, 1, 629); (416, 420, 2, 417); (422, 422, 1, 640); (423,
    423, 1, 424); (425, 425, 1, 643); (428, 428, 1, 429); (430, 430, 1, 648);
    (431, 431, 1, 432); (433, 434, 1, 650); (435, 437, 2, 436); (439, 439, 1,
    658); (440, 440, 1, 441); (444, 444, 1, 445); (452, 452, 1, 454); (453,
    453, 1, 454); (455, 455, 1, 457); (456, 456, 1, 457); (458, 458, 1, 460);
    (459, 475, 2, 460); (478, 494, 2, 479); (497, 497, 1, 499); (498, 500, 2,
    499); (502, 502, 1, 405); (503, 503, 1, 447); (504, 542, 2, 505); (544,
    544, 1, 414); (546, 562, 2, 547); (570, 570, 1, 11365); (571, 571, 1,
    572); (573, 573, 1, 410); (574, 574, 1, 11366); (577, 577, 1, 578); (579,
    579, 1, 384); (580, 580, 1, 649); (581, 581, 1, 652); (582, 590, 2, 583);
    (880, 882, 2, 881); (886, 886, 1, 887); (895, 895, 1, 1011); (902, 902, 1,
    940); (904, 906, 1, 941); (908, 908, 1, 972); (910, 911, 1, 973); (913,
    929, 1, 945); (931, 939, 1, 963); (975, 975, 1, 983); (984, 1006, 2, 985);
    (1012, 1012, 1, 952); (1015, 1015, 1, 1016); (1017, 1017, 1, 1010); (1018,
    1018, 1, 1019); (1021, 1023, 1, 891); (1024, 1039, 1, 1104); (1040, 1071,
    1, 1072); (1120, 1152, 2, 1121); (1162, 1214, 2, 1163); (1216, 1216, 1,
    1231); (1217, 1229, 2, 1218); (1232, 1326, 2, 1233); (1329, 1366, 1,
    1377); (4256, 4293, 1, 11520); (4295, 4295, 1, 11559); (4301, 4301, 1,
    11565); (5024, 5103, 1, 43888); (5104, 5109, 1, 5112); (7312, 7354, 1,
    4304); (7357, 7359, 1, 4349); (7680, 7828, 2, 7681); (7838, 7838, 1, 223);
    (7840, 7934, 2, 7841); (7944, 7951, 1, 7936); (7960, 7965, 1, 7952);
    (7976, 7983, 1, 7968); (7992, 7999, 1, 7984); (8008, 8013, 1, 8000);
    (8025, 8031, 2, 8017); (8040, 8047, 1, 8032); (8072, 8079, 1, 8064);
    (8088, 8095, 1, 8080); (8104, 8111, 1, 8096); (8120, 8121, 1, 8112);
    (8122, 8123, 1, 8048); (8124, 8124, 1, 8115); (8136, 8139, 1, 8050);
    (8140, 8140, 1, 8131); (8152, 8153, 1, 8144); (8154, 8155, 1, 8054);
    (8168, 8169, 1, 8160); (8170, 8171, 1, 8058); (8172, 8172, 1, 8165);
    (8184, 8185, 1, 8056); (8186, 8187, 1, 8060); (8188, 8188, 1, 8179);
    (8486, 8486, 1, 969); (8490, 8490, 1, 107); (8491, 8491, 1, 229); (8498,
    8498, 1, 8526); (8544, 8559, 1, 8560); (8579, 8579, 1, 8580); (9398, 9423,
    1, 9424); (11264, 11311, 1, 11312); (11360, 11360, 1, 11361); (11362,
    11362, 1, 619); (11363, 11363, 1, 7549); (11364, 11364, 1, 637); (11367,
    11371, 2, 11368); (11373, 11373, 1, 593); (11374, 11374, 1, 625); (11375,
    11375, 1, 592); (11376, 11376, 1, 594); (11378, 11378, 1, 11379); (11381,
    11381, 1, 11382); (11390, 11391, 1, 575); (11392, 11490, 2, 11393);
    (11499, 11501, 2, 11500); (11506, 11506, 1, 11507); (42560, 42604, 2,
    42561); (42624, 42650, 2, 42625); (42786, 42798, 2, 42787); (42802, 42862,
    2, 42803); (42873, 42875, 2, 42874); (42877, 42877, 1, 7545); (42878,
    42886, 2, 42879); (42891, 42891, 1, 42892); (42893, 42893, 1, 613);
    (42896, 42898, 2, 42897); (42902, 42920, 2, 42903); (42922, 42922, 1,
    614); (42923, 42923, 1, 604); (42924, 42924, 1, 609); (42925, 42925, 1,
    620); (42926, 42926, 1, 618); (42928, 42928, 1, 670); (42929, 42929, 1,
    647); (42930, 42930, 1, 669); (42931, 42931, 1, 43859); (42932, 42946, 2,
    42933); (42948, 42948, 1, 42900); (42949, 42949, 1, 642); (42950, 42950,
    1, 7566); (42951, 42953, 2, 42952); (42960, 42960, 1, 42961); (42966,
    42968, 2, 42967); (42997, 42997, 1, 42998); (65313, 65338, 1, 65345);
    (66560, 66599, 1, 66600); (66736, 66771, 1, 66776); (66928, 66938, 1,
    66967); (66940, 66954, 1, 66979); (66956, 66962, 1, 66995); (66964, 66965,
    1, 67003); (68736, 68786, 1, 68800); (71840, 71871, 1, 71872); (93760,
    93791, 1, 93792); (125184, 125217, 1, 125218) ]%N.

Definition caseIgnorableRanges : list (N * N) :=
  [ (39, 39); (46, 46); (58, 58); (94, 94); (96, 96); (168, 168); (173, 173);
    (175, 175); (180, 180); (183, 184); (688, 879); (884, 885); (890, 890);
    (900, 901); (903, 903); (1155, 1161); (1369, 1369); (1375, 1375); (1425,
    1469); (1471, 1471); (1473, 1474); (1476, 1477); (1479, 1479); (1524,
    1524); (1536, 1541); (1552, 1562); (1564, 1564); (1600, 1600); (1611,
    1631); (1648, 1648); (1750, 1757); (1759, 1768); (1770, 1773); (1807,
    1807); (1809, 1809); (1840, 1866); (1958, 1968); (2027, 2037); (2042,
    2042); (2045, 2045); (2070, 2093); (2137, 2139); (2184, 2184); (2192,
    2193); (2200, 2207); (2249, 2306); (2362, 2362); (2364, 2364); (2369,
    2376); (2381, 2381); (2385, 2391); (2402, 2403); (2417, 2417); (2433,
    2433); (2492, 2492); (2497, 2500); (2509, 2509); (2530, 2531); (2558,
    2558); (2561, 2562); (2620, 2620); (2625, 2626); (2631, 2632); (2635,
    2637); (2641, 2641); (2672, 2673); (2677, 2677); (2689, 2690); (2748,
    2748); (2753, 2757); (2759, 2760); (2765, 2765); (2786, 2787); (2810,
    2815); (2817, 2817); (2876, 2876); (2879, 2879); (2881, 2884); (2893,
    2893); (2901, 2902); (2914, 2915); (2946, 2946); (3008, 3008); (3021,
    3021); (3072, 3072); (3076, 3076); (3132, 3132); (3134, 3136); (3142,
    3144); (3146, 3149); (3157, 3158); (3170, 3171); (3201, 3201); (3260,
    3260); (3263, 3263); (3270, 3270); (3276, 3277); (3298, 3299); (3328,
    3329); (3387, 3388); (3393, 3396); (3405, 3405); (3426, 3427); (3457,
    3457); (3530, 3530); (3538, 3540); (3542, 3542); (3633, 3633); (3636,
    3642); (3654, 3662); (3761, 3761); (3764, 3772); (3782, 3782); (3784,
    3789); (3864, 3865); (3893, 3893); (3895, 3895); (3897, 3897); (3953,
    3966); (3968, 3972); (3974, 3975); (3981, 3991); (3993, 4028); (4038,
    4038); (4141, 4144); (4146, 4151); (4153, 4154); (4157, 4158); (4184,
    4185); (4190, 4192); (4209, 4212); (4226, 4226); (4229, 4230); (4237,
    4237); (4253, 4253); (4348, 4348); (4957, 4959); (5906, 5908); (5938,
    5939); (5970, 5971); (6002, 6003); (6068, 6069); (6071, 6077); (6086,
    6086); (6089, 6099); (6103, 6103); (6109, 6109); (6155, 6159); (6211,
    6211); (6277, 6278); (6313, 6313); (6432, 6434); (6439, 6440); (6450,
    6450); (6457, 6459); (6679, 6680); (6683, 6683); (6742, 6742); (6744,
    6750); (6752, 6752); (6754, 6754); (6757, 6764); (6771, 6780); (6783,
    6783); (6823, 6823); (6832, 6862); (6912, 6915); (6964, 6964); (6966,
    6970); (6972, 6972); (6978, 6978); (7019, 7027); (7040, 7041); (7074,
    7077); (7080, 7081); (7083, 7085); (7142, 7142); (7144, 7145); (7149,
    7149); (7151, 7153); (7212, 7219); (7222, 7223); (7288, 7293); (7376,
    7378); (7380, 7392); (7394, 7400); (7405, 7405); (7412, 7412); (7416,
    7417); (7468, 7530); (7544, 7544); (7579, 7679); (8125, 8125); (8127,
    8129); (8141, 8143); (8157, 8159); (8173, 8175); (8189, 8190); (8203,
    8207); (8216, 8217); (8228, 8228); (8231, 8231); (8234, 8238); (8288,
    8292); (8294, 8303); (8305, 8305); (8319, 8319); (8336, 8348); (8400,
    8432); (11388, 11389); (11503, 11505); (11631, 11631); (11647, 11647);
    (11744, 11775); (11823, 11823); (12293, 12293); (12330, 12333); (12337,
    12341); (12347, 12347); (12441, 12446); (12540, 12542); (40981, 40981);
    (42232, 42237); (42508, 42508); (42607, 42610); (42612, 42621); (42623,
    42623); (42652, 42655); (42736, 42737); (42752, 42785); (42864, 42864);
    (42888, 42890); (42994, 42996); (43000, 43001); (43010, 43010); (43014,
    43014); (43019, 43019); (43045, 43046); (43052, 43052); (43204, 43205);
    (43232, 43249); (43263, 43263); (43302, 43309); (43335, 43345); (43392,
    43394); (43443, 43443); (43446, 43449); (43452, 43453); (43471, 43471);
    (43493, 43494); (43561, 43566); (43569, 43570); (43573, 43574); (43587,
    43587); (43596, 43596); (43632, 43632); (43644, 43644); (43696, 43696);
    (43698, 43700); (43703, 43704); (43710, 43711); (43713, 43713); (43741,
    43741); (43756, 43757); (43763, 43764); (43766, 43766); (43867, 43871);
    (43881, 43883); (44005, 44005); (44008, 44008); (44013, 44013); (64286,
    64286); (64434, 64450); (65024, 65039); (65043, 65043); (65056, 65071);
    (65106, 65106); (65109, 65109); (65279, 65279); (65287, 65287); (65294,
    65294); (65306, 65306); (65342, 65342); (65344, 65344); (65392, 65392);
    (65438, 65439); (65507, 65507); (65529, 65531); (66045, 66045); (66272,
    66272); (66422, 66426); (67456, 67461); (67463, 67504); (67506, 67514);
    (68097, 68099); (68101, 68102); (68108, 68111); (68152, 68154); (68159,
    68159); (68325, 68326); (68900, 68903); (69291, 69292); (69446, 69456);
    (69506, 69509); (69633, 69633); (69688, 69702); (69744, 69744); (69747,
    69748); (69759, 69761); (69811, 69814); (69817, 69818); (69821, 69821);
    (69826, 69826); (69837, 69837); (69888, 69890); (69927, 69931); (69933,
    69940); (70003, 70003); (70016, 70017); (70070, 70078); (70089, 70092);
    (70095, 70095); (70191, 70193); (70196, 70196); (70198, 70199); (70206,
    70206); (70367, 70367); (70371, 70378); (70400, 70401); (70459, 70460);
    (70464, 70464); (70502, 70508); (70512, 70516); (70712, 70719); (70722,
    70724); (70726, 70726); (70750, 70750); (70835, 70840); (70842, 70842);
    (70847, 70848); (70850, 70851); (71090, 71093); (71100, 71101); (71103,
    71104); (71132, 71133); (71219, 71226); (71229, 71229); (71231, 71232);
    (71339, 71339); (71341, 71341); (71344, 71349); (71351, 71351); (71453,
    71455); (71458, 71461); (71463, 71467); (71727, 71735); (71737, 71738);
    (71995, 71996); (71998, 71998); (72003, 72003); (72148, 72151); (72154,
    72155); (72160, 72160); (72193, 72202); (72243, 72248); (72251, 72254);
    (72263, 72263); (72273, 72278); (72281, 72283); (72330, 72342); (72344,
    72345); (72752, 72758); (72760, 72765); (72767, 72767); (72850, 72871);
    (72874, 72880); (72882, 72883); (72885, 72886); (73009, 73014); (73018,
    73018); (73020, 73021); (73023, 73029); (73031, 73031); (73104, 73105);
    (73109, 73109); (73111, 73111); (73459, 73460); (78896, 78904); (92912,
    92916); (92976, 92982); (92992, 92995); (94031, 94031); (94095, 94111);
    (94176, 94177); (94179, 94180); (110576, 110579); (110581, 110587);
    (110589, 110590); (113821, 113822); (113824, 113827); (118528, 118573);
    (118576, 118598); (119143, 119145); (119155, 119170); (119173, 119179);
    (119210, 119213); (119362, 119364); (121344, 121398); (121403, 121452);
    (121461, 121461); (121476, 121476); (121499, 121503); (121505, 121519);
    (122880, 122886); (122888, 122904); (122907, 122913); (122915, 122916);
    (122918, 122922); (123184, 123197); (123566, 123566); (123628, 123631);
    (125136, 125142); (125252, 125259); (127995, 127999); (917505, 917505);
    (917536, 917631); (917760, 917999) ]%N.

Definition casedRanges : list (N * N) :=
  [ (65, 90); (97, 122); (170, 170); (181, 181); (186, 186); (192, 214); (216,
    246); (248, 442); (444, 447); (452, 659); (661, 687); (880, 883); (886,
    887); (891, 893); (895, 895); (902, 902); (904, 906); (908, 908); (910,
    929); (931, 1013); (1015, 1153); (1162, 1327); (1329, 1366); (1376, 1416);
    (4256, 4293); (4295, 4295); (4301, 4301); (4304, 4346); (4349, 4351);
    (5024, 5109); (5112, 5117); (7296, 7304); (7312, 7354); (7357, 7359);
    (7424, 7467); (7531, 7543); (7545, 7578); (7680, 7957); (7960, 7965);
    (7968, 8005); (8008, 8013); (8016, 8023); (8025, 8025); (8027, 8027);
    (8029, 8029); (8031, 8061); (8064, 8116); (8118, 8124); (8126, 8126);
    (8130, 8132); (8134, 8140); (8144, 8147); (8150, 8155); (8160, 8172);
    (8178, 8180); (8182, 8188); (8450, 8450); (8455, 8455); (8458, 8467);
    (8469, 8469); (8473, 8477); (8484, 8484); (8486, 8486); (8488, 8488);
    (8490, 8493); (8495, 8500); (8505, 8505); (8508, 8511); (8517, 8521);
    (8526, 8526); (8544, 8575); (8579, 8580); (9398, 9449); (11264, 11387);
    (11390, 11492); (11499, 11502); (11506, 11507); (11520, 11557); (11559,
    11559); (11565, 11565); (42560, 42605); (42624, 42651); (42786, 42863);
    (42865, 42887); (42891, 42894); (42896, 42954); (42960, 42961); (42963,
    42963); (42965, 42969); (42997, 42998); (43002, 43002); (43824, 43866);
    (43872, 43880); (43888, 43967); (64256, 64262); (64275, 64279); (65313,
    65338); (65345, 65370); (66560, 66639); (66736, 66771); (66776, 66811);
    (66928, 66938); (66940, 66954); (66956, 66962); (66964, 66965); (66967,
    66977); (66979, 66993); (66995, 67001); (67003, 67004); (68736, 68786);
    (68800, 68850); (71840, 71903); (93760, 93823); (119808, 119892); (119894,
    119964); (119966, 119967); (119970, 119970); (119973, 119974); (119977,
    119980); (119982, 119993); (119995, 119995); (119997, 120003); (120005,
    120069); (120071, 120074); (120077, 120084); (120086, 120092); (120094,
    120121); (120123, 120126); (120128, 120132); (120134, 120134); (120138,
    120144); (120146, 120485); (120488, 120512); (120514, 120538); (120540,
    120570); (120572, 120596); (120598, 120628); (120630, 120654); (120656,
    120686); (120688, 120712); (120714, 120744); (120746, 120770); (120772,
    120779); (122624, 122633); (122635, 122654); (125184, 125251); (127280,
    127305); (127312, 127337); (127344, 127369) ]%N.

Fixpoint lookupLower (c : N) (ranges : list (N * N * N * N)) : N :=
  match ranges with
  | [] => c
  | (first, last, stride, lower) :: r =>
      if ((first <=? c) && (c <=? last)
          && (((c - first) mod stride) =? 0))%N
      then (lower + (c - first))%N
      else lookupLower c r
  end.

Definition simpleLower (c : N) : N := lookupLower c lowercaseRanges.

Fixpoint inRanges (c : N) (ranges : list (N * N)) : bool :=
  match ranges with
  | [] => false
  | (first, last) :: r =>
      ((first <=? c) && (c <=? last))%N || inRanges c r
  end.

(** The property Case_Ignorable. *)
Definition isCaseIgnorable (c : N) : bool := inRanges c caseIgnorableRanges.

(** The property Cased, on the code points that are not case-ignorable
    (it is asked of no other). *)
Definition isCased (c : N) : bool := inRanges c casedRanges.

Definition isHighSurrogate (u : N) : bool :=
  ((55296 <=? u) && (u <=? 56319))%N.

Definition isLowSurrogate (u : N) : bool :=
  ((56320 <=? u) && (u <=? 57343))%N.

(** StringToCodePoints: a surrogate pair is one code point, a lone
    surrogate stands for itself. *)
Fixpoint codePoints (s : ustring) : list N :=
  match s with
  | [] => []
  | u :: r =>
      match r with
      | l :: r' =>
          if isHighSurrogate u && isLowSurrogate l
          then ((u - 55296) * 1024 + (l - 56320) + 65536)%N :: codePoints r'
          else u :: codePoints r
      | [] => [u]
      end
  end.

(** CodePointsToString. *)
Definition encode (c : N) : ustring :=
  if (c <? 65536)%N then [c]
  else [((c - 65536) / 1024 + 55296)%N; ((c - 65536) mod 1024 + 56320)%N].

Definition codeUnits (cs : list N) : ustring := flat_map encode cs.

Fixpoint skipCaseIgnorable (cs : list N) : list N :=
  match cs with
  | [] => []
  | c :: r => if isCaseIgnorable c then skipCaseIgnorable r else cs
  end.

(** The next code point that is not case-ignorable is a cased letter. *)
Definition casedNext (cs : list N) : bool :=
  match skipCaseIgnorable cs with
  | c :: _ => isCased c
  | [] => false
  end.

(** The condition Final_Sigma, [before] being what precedes the sigma,
    nearest first. *)
Definition finalSigma (before after : list N) : bool :=
  casedNext before && negb (casedNext after).

Fixpoint lowerFrom (before cs : list N) : list N :=
  match cs with
  | [] => []
  | c :: r =>
      (if (c =? 931)%N then [if finalSigma before r then 962 else 963]%N
       else if (c =? 304)%N then [105; 775]%N
       else [simpleLower c])
      ++ lowerFrom (c :: before) r
  end.

(** [s.toLowerCase()] *)
Definition toLowerCase (s : ustring) : ustring :=
  codeUnits (lowerFrom [] (codePoints s)).

(** [s.startsWith(p)] *)
Fixpoint startsWith (s p : ustring) {struct p} : bool :=
  match p, s with
  | [], _ => true
  | _ :: _, [] => false
  | a :: p', b :: s' => N.eqb a b && startsWith s' p'
  end.

(** [s.includes(t)]: [t] occurs in [s] at some position. *)
Fixpoint includes (s t : ustring) : bool :=
  startsWith s t ||
  match s with
  | [] => false
  | _ :: r => includes r t
  end.

(** [s === t] *)
Fixpoint eqb (s t : ustring) : bool :=
  match s, t with
  | [], [] => true
  | a :: s', b :: t' => N.eqb a b && eqb s' t'
  | _, _ => false
  end.

End JsUnicode.

(* ================================================================= *)
(** ** JavaScript numbers *)

Module JsNumber.

Inductive number : Type :=
| NaN
| NegInf
| Fin (k : Z)   (* the binary64 value k * 2^-1074 *)
| PosInf.

(** Number of units of [2^-1074] in 1. *)
Definition one_units : Z := 2 ^ 1074.

(** First magnitude, in units of [2^-1074], that no finite binary64
    reaches: [2^1024]. *)
Definition overflow_units : Z := 2 ^ 2098.

(** [N / D] rounded to the nearest integer, ties to even ([0 <= N],
    [0 < D]). *)
Definition round_half_even (N D : Z) : Z :=
  let q := N / D in
  let r := N mod D in
  if 2 * r <? D then q
  else if D <? 2 * r then q + 1
  else if Z.even q then q else q + 1.

(** The binary64 nearest to the non-negative rational [N / D] counted in
    units of [2^-1074] (round to nearest, ties to even).  Below [2^53]
    units the spacing of binary64 values is one unit (subnormals and the
    first normal binade); a magnitude of [L > 53] bits is spaced by
    [2^(L-53)] units. *)
Definition round_ratio (N D : Z) : number :=
  let q := N / D in
  let s := Z.max 0 (Z.log2 q + 1 - 53) in
  let k := round_half_even N (D * 2 ^ s) * 2 ^ s in
  if overflow_units <=? k then PosInf else Fin k.

Definition neg (x : number) : number :=
  match x with
  | NaN => NaN
  | NegInf => PosInf
  | Fin k => Fin (- k)
  | PosInf => NegInf
  end.

(** Rounding of an exact integer count of units. *)
Definition round_units (z : Z) : number :=
  if z <? 0 then neg (round_ratio (- z) 1) else round_ratio z 1.

(** The number nearest to an integer. *)
Definition of_Z (z : Z) : number := round_units (z * one_units).

(** The number that holds the integer [z]; all integers up to [2^53] in
    magnitude are held exactly. *)
Definition of_int (z : Z) : number := Fin (z * one_units).

(** The number denoted by the decimal [m * 10^e], [0 <= m]. *)
Definition of_decimal (m e : Z) : number :=
  if 0 <=? e then round_ratio (m * 10 ^ e * one_units) 1
  else round_ratio (m * one_units) (10 ^ (- e)).

Definition zero : number := Fin 0.

(** [x - y] *)
Definition sub (x y : number) : number :=
  match x, y with
  | NaN, _ | _, NaN => NaN
  | PosInf, PosInf | NegInf, NegInf => NaN
  | PosInf, _ | _, NegInf => PosInf
  | NegInf, _ | _, PosInf => NegInf
  | Fin a, Fin b => round_units (a - b)
  end.

(** [x < y]; false as soon as one side is NaN. *)
Definition ltb (x y : number) : bool :=
  match x, y with
  | NaN, _ | _, NaN => false
  | _, NegInf => false
  | NegInf, _ => true
  | PosInf, _ => false
  | Fin _, PosInf => true
  | Fin a, Fin b => a <? b
  end.

(** [x <= y]; false as soon as one side is NaN. *)
Definition leb (x y : number) : bool :=
  match x, y with
  | NaN, _ | _, NaN => false
  | NegInf, _ => true
  | _, PosInf => true
  | _, NegInf => false
  | PosInf, _ => false
  | Fin a, Fin b => a <=? b
  end.

Definition isNaN (x : number) : bool :=
  match x with NaN => true | _ => false end.

(** [x === y] on numbers; NaN equals nothing. *)
Definition eqb (x y : number) : bool :=
  match x, y with
  | NegInf, NegInf | PosInf, PosInf => true
  | Fin a, Fin b => a =? b
  | _, _ => false
  end.

(** Value of a string of decimal digits. *)
Fixpoint digitsValue (acc : Z) (s : string) : Z :=
  match s with
  | EmptyString => acc
  | String c r => digitsValue (10 * acc + (Z.of_N (N_of_ascii c) - 48)) r
  end.

(** An optional sign: whether it is a minus, and what follows it. *)
Definition optSign (s : string) : bool * string :=
  match s with
  | String "-"%char r => (true, r)
  | String "+"%char r => (false, r)
  | _ => (false, s)
  end.

(** The exponent part [[eE][+-]?digits] at the head of [s], 0 when there
    is none. *)
Definition exponentPart (s : string) : Z :=
  match s with
  | String c r =>
      if (Ascii.eqb c "e" || Ascii.eqb c "E")%bool then
        let '(minus, r1) := optSign r in
        let '(ds, _) := JsString.span JsString.isDigit r1 in
        match ds with
        | EmptyString => 0
        | _ => if minus then - digitsValue 0 ds else digitsValue 0 ds
        end
      else 0
  | EmptyString => 0
  end.

(** [parseFloat(s)]: white space is skipped, then the longest prefix that
    is a decimal literal (optional sign, then [Infinity], or digits with
    an optional fraction and an optional exponent) is converted; NaN when
    there is no such prefix. *)
Definition parseFloat (s : string) : number :=
  let '(minus, s1) := optSign (JsString.trimStart s) in
  let sign := fun x => if minus then neg x else x in
  if JsString.startsWith s1 "Infinity" then sign PosInf
  else
    let '(ip, s2) := JsString.span JsString.isDigit s1 in
    let '(fp, s3) :=
      match s2 with
      | String "."%char r => JsString.span JsString.isDigit r
      | _ => (EmptyString, s2)
      end in
    match (ip ++ fp)%string with
    | EmptyString => NaN
    | ds =>
        sign (of_decimal (digitsValue 0 ds)
                (exponentPart s3 - Z.of_nat (String.length fp)))
    end.

(** Value of a hexadecimal digit. *)
Definition hexDigitValue (c : ascii) : Z :=
  let n := Z.of_N (N_of_ascii c) in
  if JsString.isDigit c then n - 48
  else if (97 <=? n) then n - 87 else n - 55.

Fixpoint hexValue (acc : Z) (s : string) : Z :=
  match s with
  | EmptyString => acc
  | String c r => hexValue (16 * acc + hexDigitValue c) r
  end.

(** [parseInt(s)] without a radix: white space and a sign are skipped, a
    [0x] or [0X] prefix selects base 16, and the longest prefix of digits
    of the base is converted; NaN when there is none. *)
Definition parseInt (s : string) : number :=
  let '(minus, s1) := optSign (JsString.trimStart s) in
  let sign := fun x => if minus then neg x else x in
  if (JsString.startsWith s1 "0x" || JsString.startsWith s1 "0X")%bool then
    match fst (JsString.span JsString.isHexDigit (JsString.slice 2 s1)) with
    | EmptyString => NaN
    | ds => sign (of_Z (hexValue 0 ds))
    end
  else
    match fst (JsString.span JsString.isDigit s1) with
    | EmptyString => NaN
    | ds => sign (of_Z (digitsValue 0 ds))
    end.

End JsNumber.

(* ================================================================= *)
(** ** [Array.prototype.sort] *)

Module JsArray.
Import JsNumber.

Section Sort.
Context {A : Type}.
Variable comparator : A -> A -> number.

(** The abstract operation SortCompare for two defined elements: the
    comparator's result, with NaN read as [+0], matters by its sign
    only. *)
Definition sortCompare (x y : A) : comparison :=
  let v := comparator x y in
  if ltb v zero then Lt
  else if ltb zero v then Gt
  else Eq.

Fixpoint insert (x : A) (l : list A) : list A :=
  match l with
  | [] => [x]
  | y :: r =>
      match sortCompare x y with
      | Gt => y :: insert x r
      | _ => x :: l
      end
  end.

(** [[...l].sort(comparator)].  ECMAScript asks the sort to be stable
    and, when the comparator is consistent, to leave the elements in
    the order it defines; that result is unique, and insertion from
    the right computes it.  With an inconsistent comparator the order
    is implementation-defined, and this is one outcome. *)
Fixpoint sort (l : list A) : list A :=
  match l with
  | [] => []
  | x :: r => insert x (sort r)
  end.
End Sort.

End JsArray.

(* ================================================================= *)
(** ** Shared types ([types/marketplace]) *)

Import JsNumber.

Inductive ListingType : Type := standard | escrow.

Definition ListingType_eqb (a b : ListingType) : bool :=
  match a, b with
  | standard, standard | escrow, escrow => true
  | _, _ => false
  end.

Module Item.
(** Modelled from the spec: the declaration of [MarketplaceItem] (in
    [types/marketplace]) is not part of the sources; the fields are those of
    the spec's Listing: "id, title, description, price (decimal string),
    category, image (data URI or URL), seller (identity string), createdAt
    (timestamp), likes (count), listingType: standard | escrow,
    escrowDuration (days), escrowBuyerAddress (optional identity string)".
    [createdAt] is the time value of the date, in milliseconds, and [likes]
    a count; both are integers that a number holds exactly. *)
Record MarketplaceItem : Type := {
  id : Z;
  title : JsUnicode.ustring;
  description : string;
  price : string;
  category : string;
  image : string;
  seller : JsUnicode.ustring;
  createdAt : Z;
  likes : N;
  listingType : ListingType;
  escrowDuration : number;
  escrowBuyerAddress : option string
}.
End Item.
Definition MarketplaceItem : Type := Item.MarketplaceItem.

(** The form state of the listing creator, with the fields its initial
    value has in [CreateListingModal]. *)
Module Form.
Record ListingFormData : Type := {
  title : string;
  description : string;
  price : string;
  category : string;
  escrowDuration : string;
  listingType : ListingType;
  escrowBuyerAddress : string
}.
End Form.
Definition ListingFormData : Type := Form.ListingFormData.

(** The argument of the store's [addItem]: a listing without the fields the
    store fills in.  [image] is [imagePreview!], passed as it is, and an
    absent [escrowBuyerAddress] is [undefined]. *)
Module New.
Record NewItem : Type := {
  title : string;
  description : string;
  price : string;
  category : string;
  image : option string;
  seller : string;
  escrowDuration : number;
  listingType : ListingType;
  escrowBuyerAddress : option string
}.
End New.
Definition NewItem : Type := New.NewItem.

(* ================================================================= *)
(** ** The listing browser ([MarketplaceGrid]) *)

Module MarketplaceGrid.
Import JsString.

(** What the component gets from the session collaborator. *)
Record Session : Type := {
  canViewEscrowListing : option string -> bool;
  isConnected : bool
}.

(** Truthiness of an optional string: defined and not empty. *)
Definition truthyOpt (o : option string) : bool :=
  match o with
  | Some s => truthy s
  | None => false
  end.

Section Component.
Variable session : Session.
Variable currentUserAddress : JsUnicode.ustring.

Section Filter.
Variable searchQuery : JsUnicode.ustring.
Variable category : string.

Definition matchesSearch (item : MarketplaceItem) : bool :=
  JsUnicode.includes (JsUnicode.toLowerCase (Item.title item))
    (JsUnicode.toLowerCase searchQuery)
  || JsUnicode.includes (JsUnicode.toLowerCase (Item.seller item))
       (JsUnicode.toLowerCase searchQuery).

Definition matchesCategory (item : MarketplaceItem) : bool :=
  String.eqb category "all" || String.eqb (Item.category item) category.

Definition canView (item : MarketplaceItem) : bool :=
  match Item.listingType item with
  | escrow => canViewEscrowListing session (Item.escrowBuyerAddress item)
  | standard => true
  end.

Definition filteredItems (items : list MarketplaceItem)
  : list MarketplaceItem :=
  filter (fun item =>
            matchesSearch item && matchesCategory item && canView item)
         items.
End Filter.

(** The comparator handed to [sort], a [switch] on the sort key. *)
Definition comparator (sortBy : string) (a b : MarketplaceItem) : number :=
  if String.eqb sortBy "price-low" then
    sub (parseFloat (Item.price a)) (parseFloat (Item.price b))
  else if String.eqb sortBy "price-high" then
    sub (parseFloat (Item.price b)) (parseFloat (Item.price a))
  else if String.eqb sortBy "popular" then
    sub (of_int (Z.of_N (Item.likes b))) (of_int (Z.of_N (Item.likes a)))
  else if String.eqb sortBy "recent" then
    sub (of_int (Item.createdAt b)) (of_int (Item.createdAt a))
  else zero.

Definition sortedItems (sortBy : string)
    (filteredItems : list MarketplaceItem) : list MarketplaceItem :=
  JsArray.sort (comparator sortBy) filteredItems.

Definition hiddenEscrowCount (items : list MarketplaceItem) : nat :=
  List.length
    (filter (fun item =>
               ListingType_eqb (Item.listingType item) escrow
               && negb (canViewEscrowListing session
                          (Item.escrowBuyerAddress item)))
            items).

Definition isUserListing (seller : JsUnicode.ustring) : bool :=
  JsUnicode.eqb seller currentUserAddress.

(** Whether the "Reserved for you" line of a card is rendered:
    [item.escrowBuyerAddress && isConnected]. *)
Definition reservedForYou (item : MarketplaceItem) : bool :=
  truthyOpt (Item.escrowBuyerAddress item) && isConnected session.

(** The cards of the grid, in order, each with its indicators. *)
Record Card : Type := {
  card_item : MarketplaceItem;
  card_own : bool;
  card_reserved : bool
}.

Definition render (items : list MarketplaceItem)
    (searchQuery : JsUnicode.ustring) (category sortBy : string)
  : list Card :=
  map (fun item =>
         {| card_item := item;
            card_own := isUserListing (Item.seller item);
            card_reserved := reservedForYou item |})
      (sortedItems sortBy (filteredItems searchQuery category items)).
End Component.
End MarketplaceGrid.

(* ================================================================= *)
(** ** The listing creator ([CreateListingModal]) *)

Module CreateListingModal.
Import JsString.

Record File : Type := {
  file_type : string;
  file_size : Z
}.

(** The component's state hooks. *)
Record State : Type := {
  isSubmitting : bool;
  formData : ListingFormData;
  selectedImage : option File;
  imagePreview : option string;
  isDragging : bool
}.

(** Calls into the collaborators, as the component makes them. *)
Inductive Call : Type :=
| ToastError (message : string)
| ToastSuccess (message : string)
| AddItem (item : NewItem)
| OnClose
| ConsoleError (message : string).

(** The submission suspended at its [await]: the values of the render in
    which [handleSubmit] was created, which its continuation reads. *)
Record Pending : Type := {
  p_formData : ListingFormData;
  p_imagePreview : option string
}.

Record World : Type := {
  state : State;
  calls : list Call;          (* oldest first *)
  pending : option Pending;   (* a submission waiting for its delay *)
  resetTimers : nat           (* resets scheduled by [handleClose] *)
}.

(** How the awaited delay and the store behave in one submission. *)
Record Env : Type := {
  delayRejects : bool;
  addItemThrows : bool
}.

(** *** A state and exception monad for the handlers *)

Inductive Outcome (A : Type) : Type :=
| Return (a : A)
| Throw.
Arguments Return {A} a.
Arguments Throw {A}.

Definition M (A : Type) : Type := World -> Outcome A * World.

Definition ret {A} (a : A) : M A := fun w => (Return a, w).

Definition bind {A B} (c : M A) (k : A -> M B) : M B :=
  fun w =>
    match c w with
    | (Return a, w') => k a w'
    | (Throw, w') => (Throw, w')
    end.

Definition throw {A} : M A := fun w => (Throw, w).

(** [try { body } catch { handler } finally { final }] *)
Definition tryCatchFinally (body handler final : M unit) : M unit :=
  fun w =>
    let '(o, w1) :=
      match body w with
      | (Return _, w') => (Return tt, w')
      | (Throw, w') => handler w'
      end in
    match final w1 with
    | (Return _, w2) => (o, w2)
    | (Throw, w2) => (Throw, w2)
    end.

Local Notation "x <- c ;; k" := (bind c (fun x => k))
  (at level 61, c at next level, right associativity).
Local Notation "c ;; k" := (bind c (fun _ => k))
  (at level 61, right associativity).

(** The world after one more call to a collaborator. *)
Definition record (c : Call) (w : World) : World :=
  {| state := state w; calls := calls w ++ [c];
     pending := pending w; resetTimers := resetTimers w |}.

Definition call (c : Call) : M unit := fun w => (Return tt, record c w).

Definition modify (f : State -> State) : M unit :=
  fun w => (Return tt,
            {| state := f (state w); calls := calls w;
               pending := pending w; resetTimers := resetTimers w |}).

Definition setIsSubmitting (b : bool) : M unit :=
  modify (fun s =>
    {| isSubmitting := b; formData := formData s;
       selectedImage := selectedImage s; imagePreview := imagePreview s;
       isDragging := isDragging s |}).

Definition setFormData (d : ListingFormData) : M unit :=
  modify (fun s =>
    {| isSubmitting := isSubmitting s; formData := d;
       selectedImage := selectedImage s; imagePreview := imagePreview s;
       isDragging := isDragging s |}).

Definition setSelectedImage (f : option File) : M unit :=
  modify (fun s =>
    {| isSubmitting := isSubmitting s; formData := formData s;
       selectedImage := f; imagePreview := imagePreview s;
       isDragging := isDragging s |}).

Definition setImagePreview (p : option string) : M unit :=
  modify (fun s =>
    {| isSubmitting := isSubmitting s; formData := formData s;
       selectedImage := selectedImage s; imagePreview := p;
       isDragging := isDragging s |}).

Definition setIsDragging (b : bool) : M unit :=
  modify (fun s =>
    {| isSubmitting := isSubmitting s; formData := formData s;
       selectedImage := selectedImage s; imagePreview := imagePreview s;
       isDragging := b |}).

Definition toast_error (m : string) : M unit := call (ToastError m).
Definition toast_success (m : string) : M unit := call (ToastSuccess m).
Definition console_error (m : string) : M unit := call (ConsoleError m).
Definition onClose : M unit := call OnClose.

(** The store's [addItem]: the call is made, and may throw. *)
Definition addItem (env : Env) (item : NewItem) : M unit :=
  call (AddItem item) ;;
  if addItemThrows env then throw else ret tt.

(** [await new Promise(resolve => setTimeout(resolve, 1500))], seen from
    the continuation: it resumes normally or with the rejection. *)
Definition awaited (env : Env) : M unit :=
  if delayRejects env then throw else ret tt.

Definition setPending (p : option Pending) : M unit :=
  fun w => (Return tt,
            {| state := state w; calls := calls w;
               pending := p; resetTimers := resetTimers w |}).

(** [setTimeout(reset, 300)] of [handleClose]. *)
Definition scheduleReset : M unit :=
  fun w => (Return tt,
            {| state := state w; calls := calls w;
               pending := pending w; resetTimers := S (resetTimers w) |}).

(** *** The component *)

Definition initialFormData : ListingFormData :=
  {| Form.title := "";
     Form.description := "";
     Form.price := "";
     Form.category := "art";
     Form.escrowDuration := "7";
     Form.listingType := standard;
     Form.escrowBuyerAddress := "" |}.

Definition initialState : State :=
  {| isSubmitting := false;
     formData := initialFormData;
     selectedImage := None;
     imagePreview := None;
     isDragging := false |}.

(** [/^[a-fA-F0-9]{64}$/.test(s)]: without the [m] flag the anchors are
    the two ends of the string. *)
Definition test_hex64 (s : string) : bool :=
  Nat.eqb (String.length s) 64 && forallb isHexDigit s.

Definition validateSuiAddress (address : string) : bool :=
  let cleanAddress :=
    if startsWith address "0x" then slice 2 address else address in
  test_hex64 cleanAddress.

Definition isNull {A} (o : option A) : bool :=
  match o with Some _ => false | None => true end.

(** [!imagePreview]: null or the empty string. *)
Definition falsyOpt (o : option string) : bool :=
  match o with Some s => negb (truthy s) | None => true end.

Definition validateForm (s : State) : M bool :=
  let formData := formData s in
  if isNull (selectedImage s) || falsyOpt (imagePreview s) then
    toast_error "Please upload an image for your listing" ;;
    ret false
  else if negb (truthy (trim (Form.title formData))) then
    toast_error "Please enter a title for your listing" ;;
    ret false
  else if negb (truthy (trim (Form.description formData))) then
    toast_error "Please enter a description for your listing" ;;
    ret false
  else if negb (truthy (Form.price formData))
          || leb (parseFloat (Form.price formData)) zero then
    toast_error "Please enter a valid price" ;;
    ret false
  else if ListingType_eqb (Form.listingType formData) escrow then
    if negb (truthy (trim (Form.escrowBuyerAddress formData))) then
      toast_error
        "Please enter the buyer's Sui wallet address for escrow listing" ;;
      ret false
    else if negb (validateSuiAddress (Form.escrowBuyerAddress formData)) then
      toast_error
        "Please enter a valid Sui wallet address (64 character hex string)" ;;
      ret false
    else ret true
  else ret true.

(** The record [handleSubmit] hands to [addItem]. *)
Definition newItem (formData : ListingFormData)
    (imagePreview : option string) : NewItem :=
  {| New.title := Form.title formData;
     New.description := Form.description formData;
     New.price := Form.price formData;
     New.category := Form.category formData;
     New.image := imagePreview;
     New.seller := "CurrentUser";
     New.escrowDuration := parseInt (Form.escrowDuration formData);
     New.listingType := Form.listingType formData;
     New.escrowBuyerAddress :=
       match Form.listingType formData with
       | escrow => Some (Form.escrowBuyerAddress formData)
       | standard => None
       end |}.

Definition successMessage (t : ListingType) : string :=
  match t with
  | escrow => "🔒 Escrow listing created successfully!"
  | standard => "🎉 Listing created successfully!"
  end.

(** [handleSubmit] up to its [await]. *)
Definition handleSubmit_begin : M unit :=
  fun w =>
    let s := state w in
    (ok <- validateForm s ;;
     if negb ok then ret tt
     else
       setIsSubmitting true ;;
       setPending (Some {| p_formData := formData s;
                           p_imagePreview := imagePreview s |})) w.

(** [handleSubmit] from its [await] on, once the delay has settled. *)
Definition handleSubmit_resume (env : Env) : M unit :=
  fun w =>
    match pending w with
    | None => (Return tt, w)
    | Some p =>
        let formData := p_formData p in
        (setPending None ;;
         tryCatchFinally
           (awaited env ;;
            addItem env (newItem formData (p_imagePreview p)) ;;
            toast_success (successMessage (Form.listingType formData)) ;;
            setFormData initialFormData ;;
            setSelectedImage None ;;
            setImagePreview None ;;
            onClose)
           (toast_error "Failed to create listing. Please try again." ;;
            console_error "Error creating listing:")
           (setIsSubmitting false)) w
    end.

(** The reset that [handleClose] schedules. *)
Definition resetForm : M unit :=
  setFormData initialFormData ;;
  setSelectedImage None ;;
  setImagePreview None ;;
  setIsDragging false.

Definition handleClose : M unit :=
  fun w =>
    if isSubmitting (state w) then (Return tt, w)
    else (onClose ;; scheduleReset) w.

(** One of the scheduled resets fires. *)
Definition resetTimerFires : M unit :=
  fun w =>
    match resetTimers w with
    | O => (Return tt, w)
    | S n =>
        resetForm {| state := state w; calls := calls w;
                     pending := pending w; resetTimers := n |}
    end.

(** The two listing-type buttons. *)
Definition selectStandard : M unit :=
  fun w =>
    let d := formData (state w) in
    setFormData
      {| Form.title := Form.title d;
         Form.description := Form.description d;
         Form.price := Form.price d;
         Form.category := Form.category d;
         Form.escrowDuration := Form.escrowDuration d;
         Form.listingType := standard;
         Form.escrowBuyerAddress := "" |} w.

Definition selectEscrow : M unit :=
  fun w =>
    let d := formData (state w) in
    setFormData
      {| Form.title := Form.title d;
         Form.description := Form.description d;
         Form.price := Form.price d;
         Form.category := Form.category d;
         Form.escrowDuration := Form.escrowDuration d;
         Form.listingType := escrow;
         Form.escrowBuyerAddress := Form.escrowBuyerAddress d |} w.

(** What the user and the run time can make happen to the modal. *)
Inductive Event : Type :=
| Submit
| DelaySettles (env : Env)
| Close
| ResetTimer.

(** The submit button carries [disabled={isSubmitting}], so a submission
    starts only when none is in flight; the backdrop stays clickable, so
    [handleClose] can run at any time. *)
Definition step (e : Event) (w : World) : World :=
  snd (match e with
       | Submit =>
           if isSubmitting (state w) then (Return tt, w)
           else handleSubmit_begin w
       | DelaySettles env => handleSubmit_resume env w
       | Close => handleClose w
       | ResetTimer => resetTimerFires w
       end).

Definition run (es : list Event) (w : World) : World :=
  fold_left (fun w e => step e w) es w.

Definition initialWorld : World :=
  {| state := initialState; calls := []; pending := None;
     resetTimers := 0 |}.

End CreateListingModal.

(* ================================================================= *)
(** ** The specification's vocabulary *)

Module Spec.
Import JsString.

(** The capital letters among the characters up to U+00FF: A to Z, and
    U+00C0 to U+00DE without the multiplication sign U+00D7.  The small
    letter of each is 32 further on. *)
Definition capitalLatin1 (c : N) : Prop :=
  (65 <= c <= 90 \/ (192 <= c <= 222 /\ c <> 215))%N.




(** A string of characters up to U+00FF (Basic Latin and Latin-1). *)
Definition latin1 (s : JsUnicode.ustring) : Prop :=
  Forall (fun u => (u < 256)%N) s.

(** The hexadecimal digits, 0-9, a-f and A-F. *)
Definition hexDigits : list ascii :=
  list_ascii_of_string "0123456789abcdefABCDEF".

Fixpoint allIn (cs : list ascii) (s : string) : Prop :=
  match s with
  | EmptyString => True
  | String c r => In c cs /\ allIn cs r
  end.

(** The address shape: an optional [0x], then exactly 64 hexadecimal
    digits. *)
Definition addressShape (a : string) : Prop :=
  exists r,
    (a = r \/ a = ("0x" ++ r)%string)
    /\ String.length r = 64%nat /\ allIn hexDigits r.

(** The price of an item as a number. *)
Definition priceValue (item : MarketplaceItem) : number :=
  parseFloat (Item.price item).

(** The price is a decimal string: it parses to a number. *)
Definition priced (item : MarketplaceItem) : Prop :=
  isNaN (priceValue item) = false.

Definition decimalPrices (l : list MarketplaceItem) : Prop :=
  Forall priced l.

(** Orders on items, by the sort keys. *)
Definition priceAscending (a b : MarketplaceItem) : Prop :=
  leb (priceValue a) (priceValue b) = true.
Definition priceDescending (a b : MarketplaceItem) : Prop :=
  leb (priceValue b) (priceValue a) = true.
Definition likesDescending (a b : MarketplaceItem) : Prop :=
  (Item.likes b <= Item.likes a)%N.
Definition createdAtDescending (a b : MarketplaceItem) : Prop :=
  Item.createdAt b <= Item.createdAt a.

Definition knownSortKey (k : string) : Prop :=
  k = "recent" \/ k = "price-low" \/ k = "price-high" \/ k = "popular".

(** The validation rules of the listing creator, in the order of the
    specification: what must hold, and the rejection shown otherwise. *)
Definition rules (s : CreateListingModal.State) : list (bool * string) :=
  let d := CreateListingModal.formData s in
  [ (negb (CreateListingModal.isNull (CreateListingModal.selectedImage s))
     && negb (CreateListingModal.falsyOpt
                (CreateListingModal.imagePreview s)),
     "Please upload an image for your listing");
    (truthy (trim (Form.title d)),
     "Please enter a title for your listing");
    (truthy (trim (Form.description d)),
     "Please enter a description for your listing");
    (truthy (Form.price d) && negb (leb (parseFloat (Form.price d)) zero),
     "Please enter a valid price") ]
  ++ match Form.listingType d with
     | escrow =>
         [ (truthy (trim (Form.escrowBuyerAddress d)),
            "Please enter the buyer's Sui wallet address for escrow listing");
           (CreateListingModal.validateSuiAddress (Form.escrowBuyerAddress d),
            "Please enter a valid Sui wallet address (64 character hex string)") ]
     | standard => []
     end.

(** The rejection of the first rule that fails, if any. *)
Fixpoint firstFailure (rs : list (bool * string)) : option string :=
  match rs with
  | [] => None
  | (true, _) :: r => firstFailure r
  | (false, m) :: _ => Some m
  end.

End Spec.

(* ================================================================= *)
(** ** Sample data *)

Module Samples.
Import MarketplaceGrid.

Definition alice : string :=
  "0x00000000000000000000000000000000000000000000000000000000000a11ce".

(** A session collaborator that lets a connected viewer see the escrow
    listings reserved for the viewer's own address. *)
Definition session_of (viewer : option string) : Session :=
  {| canViewEscrowListing := fun a =>
       match viewer, a with
       | Some v, Some b => String.eqb v b
       | _, _ => false
       end;
     isConnected := match viewer with Some _ => true | None => false end |}.

(** A connected session whose policy shows every escrow listing. *)
Definition session_open : Session :=
  {| canViewEscrowListing := fun _ => true; isConnected := true |}.

Definition item (i : Z) (t p c s : string) (at_ : Z) (n : N)
    (ty : ListingType) (buyer : option string) : MarketplaceItem :=
  {| Item.id := i; Item.title := JsUnicode.units t; Item.description := "";
     Item.price := p; Item.category := c; Item.image := "data:,";
     Item.seller := JsUnicode.units s; Item.createdAt := at_;
     Item.likes := n;
     Item.listingType := ty; Item.escrowDuration := of_int 7;
     Item.escrowBuyerAddress := buyer |}.

Definition sword : MarketplaceItem :=
  item 1 "Crystal Sword" "10" "gaming" "Bob" 1700000000000 5 standard None.
Definition song : MarketplaceItem :=
  item 2 "Night Song" "2.5" "music" "Carol" 1700000500000 12 escrow
    (Some alice).
Definition domain : MarketplaceItem :=
  item 3 "sui.example" "7" "domains" "bob" 1700000200000 9 standard None.

Definition listings : list MarketplaceItem := [sword; song; domain].

Definition image : CreateListingModal.File :=
  {| CreateListingModal.file_type := "image/png";
     CreateListingModal.file_size := 2048 |}.

Definition form (p : string) (ty : ListingType) (buyer : string)
  : ListingFormData :=
  {| Form.title := "Crystal Sword";
     Form.description := "A sword";
     Form.price := p;
     Form.category := "gaming";
     Form.escrowDuration := "7";
     Form.listingType := ty;
     Form.escrowBuyerAddress := buyer |}.

(** A modal filled in by the user, with a staged image. *)
Definition filled (d : ListingFormData) : CreateListingModal.World :=
  {| CreateListingModal.state :=
       {| CreateListingModal.isSubmitting := false;
          CreateListingModal.formData := d;
          CreateListingModal.selectedImage := Some image;
          CreateListingModal.imagePreview := Some "data:image/png;base64,AA";
          CreateListingModal.isDragging := false |};
     CreateListingModal.calls := [];
     CreateListingModal.pending := None;
     CreateListingModal.resetTimers := 0 |}.

Definition quiet : CreateListingModal.Env :=
  {| CreateListingModal.delayRejects := false;
     CreateListingModal.addItemThrows := false |}.
Definition storeFails : CreateListingModal.Env :=
  {| CreateListingModal.delayRejects := false;
     CreateListingModal.addItemThrows := true |}.

End Samples.

(* ================================================================= *)
(** ** The rest of the listing creator: staging an image, editing fields *)

Module Staging.
Import JsString CreateListingModal.

(** The modal together with the reads its [FileReader]s have in
    progress. *)
Record Desk : Type := {
  world : World;
  reads : nat
}.

(** A handler of the modal, run at the desk; none of those run this way
    throws. *)
Definition lift (c : M unit) (d : Desk) : Desk :=
  {| world := snd (c (world d)); reads := reads d |}.

(** [reader.readAsDataURL(file)]: one more read in progress. *)
Definition readAsDataURL (d : Desk) : Desk :=
  {| world := world d; reads := S (reads d) |}.

Definition maxFileSize : Z := 10 * 1024 * 1024.

Definition handleImageSelect (file : File) (d : Desk) : Desk :=
  if startsWith (file_type file) "image/" then
    if maxFileSize <? file_size file then
      lift (toast_error "File size must be less than 10MB") d
    else
      lift (toast_success "Image uploaded successfully!")
        (readAsDataURL (lift (setSelectedImage (Some file)) d))
  else lift (toast_error "Please select a valid image file") d.

(** [reader.onloadend]: the preview becomes [reader.result], which is null
    when the read failed. *)
Definition readerLoadEnd (result : option string) (d : Desk) : Desk :=
  match reads d with
  | O => d
  | S n => {| world := snd (setImagePreview result (world d)); reads := n |}
  end.

(** [e.target.files?.[0]] and [e.dataTransfer.files[0]]. *)
Definition firstFile (files : list File) : option File :=
  match files with
  | f :: _ => Some f
  | [] => None
  end.

Definition handleFileInputChange (files : list File) (d : Desk) : Desk :=
  match firstFile files with
  | Some file => handleImageSelect file d
  | None => d
  end.

Definition handleDragOver : M unit := setIsDragging true.

Definition handleDragLeave : M unit := setIsDragging false.

Definition handleDrop (files : list File) (d : Desk) : Desk :=
  let d1 := lift (setIsDragging false) d in
  match firstFile files with
  | Some file => handleImageSelect file d1
  | None => d1
  end.

Definition removeImage : M unit :=
  bind (setSelectedImage None) (fun _ => setImagePreview None).

(** The [onChange] handlers of the fields: [{ ...formData, field: v }]. *)
Definition editTitle (v : string) : M unit :=
  fun w =>
    let d := formData (state w) in
    setFormData
      {| Form.title := v;
         Form.description := Form.description d;
         Form.price := Form.price d;
         Form.category := Form.category d;
         Form.escrowDuration := Form.escrowDuration d;
         Form.listingType := Form.listingType d;
         Form.escrowBuyerAddress := Form.escrowBuyerAddress d |} w.

Definition editDescription (v : string) : M unit :=
  fun w =>
    let d := formData (state w) in
    setFormData
      {| Form.title := Form.title d;
         Form.description := v;
         Form.price := Form.price d;
         Form.category := Form.category d;
         Form.escrowDuration := Form.escrowDuration d;
         Form.listingType := Form.listingType d;
         Form.escrowBuyerAddress := Form.escrowBuyerAddress d |} w.

Definition editPrice (v : string) : M unit :=
  fun w =>
    let d := formData (state w) in
    setFormData
      {| Form.title := Form.title d;
         Form.description := Form.description d;
         Form.price := v;
         Form.category := Form.category d;
         Form.escrowDuration := Form.escrowDuration d;
         Form.listingType := Form.listingType d;
         Form.escrowBuyerAddress := Form.escrowBuyerAddress d |} w.

Definition editCategory (v : string) : M unit :=
  fun w =>
    let d := formData (state w) in
    setFormData
      {| Form.title := Form.title d;
         Form.description := Form.description d;
         Form.price := Form.price d;
         Form.category := v;
         Form.escrowDuration := Form.escrowDuration d;
         Form.listingType := Form.listingType d;
         Form.escrowBuyerAddress := Form.escrowBuyerAddress d |} w.

Definition editEscrowDuration (v : string) : M unit :=
  fun w =>
    let d := formData (state w) in
    setFormData
      {| Form.title := Form.title d;
         Form.description := Form.description d;
         Form.price := Form.price d;
         Form.category := Form.category d;
         Form.escrowDuration := v;
         Form.listingType := Form.listingType d;
         Form.escrowBuyerAddress := Form.escrowBuyerAddress d |} w.

Definition editEscrowBuyerAddress (v : string) : M unit :=
  fun w =>
    let d := formData (state w) in
    setFormData
      {| Form.title := Form.title d;
         Form.description := Form.description d;
         Form.price := Form.price d;
         Form.category := Form.category d;
         Form.escrowDuration := Form.escrowDuration d;
         Form.listingType := Form.listingType d;
         Form.escrowBuyerAddress := v |} w.

(** Everything that can happen to the modal: the events of
    [CreateListingModal.step], the file input, the drop zone, the end of a
    read, and the controls of the form. *)
Inductive Action : Type :=
| Modal (e : Event)
| FileInputChange (files : list File)
| DragOver
| DragLeave
| Drop (files : list File)
| LoadEnd (result : option string)
| RemoveImage
| ChooseStandard
| ChooseEscrow
| EditTitle (v : string)
| EditDescription (v : string)
| EditPrice (v : string)
| EditCategory (v : string)
| EditEscrowDuration (v : string)
| EditEscrowBuyerAddress (v : string).

(** Which controls respond, as the markup has it: every input and button
    of the form carries [disabled={isSubmitting}]; the drop zone is there
    while no preview is, and the remove button while one is; the buyer
    address and the escrow duration are there for an escrow listing.
    Whether the modal is shown is the parent's [isOpen] and is not
    followed: an action may come at any time. *)
Definition enabled (a : Action) (s : State) : bool :=
  match a with
  | Modal _ | LoadEnd _ => true
  | DragOver | DragLeave | Drop _ => falsyOpt (imagePreview s)
  | RemoveImage =>
      negb (falsyOpt (imagePreview s)) && negb (isSubmitting s)
  | EditEscrowDuration _ | EditEscrowBuyerAddress _ =>
      ListingType_eqb (Form.listingType (formData s)) escrow
      && negb (isSubmitting s)
  | _ => negb (isSubmitting s)
  end.

Definition act (a : Action) (d : Desk) : Desk :=
  if enabled a (state (world d)) then
    match a with
    | Modal e => {| world := step e (world d); reads := reads d |}
    | FileInputChange files => handleFileInputChange files d
    | DragOver => lift handleDragOver d
    | DragLeave => lift handleDragLeave d
    | Drop files => handleDrop files d
    | LoadEnd result => readerLoadEnd result d
    | RemoveImage => lift removeImage d
    | ChooseStandard => lift selectStandard d
    | ChooseEscrow => lift selectEscrow d
    | EditTitle v => lift (editTitle v) d
    | EditDescription v => lift (editDescription v) d
    | EditPrice v => lift (editPrice v) d
    | EditCategory v => lift (editCategory v) d
    | EditEscrowDuration v => lift (editEscrowDuration v) d
    | EditEscrowBuyerAddress v => lift (editEscrowBuyerAddress v) d
    end
  else d.

Definition perform (actions : list Action) (d : Desk) : Desk :=
  fold_left (fun d a => act a d) actions d.

Definition initialDesk : Desk := {| world := initialWorld; reads := 0 |}.

(** A record that went through every rule of [validateForm]. *)
Definition Validated (r : NewItem) : Prop :=
  (exists preview, New.image r = Some preview /\ preview <> "")
  /\ truthy (trim (New.title r)) = true
  /\ truthy (trim (New.description r)) = true
  /\ New.price r <> ""
  /\ leb (parseFloat (New.price r)) zero = false
  /\ match New.listingType r with
     | escrow =>
         exists a, New.escrowBuyerAddress r = Some a /\ Spec.addressShape a
     | standard => New.escrowBuyerAddress r = None
     end.

(** What holds of the desk whatever has happened to it: the store has
    only been handed validated records, a waiting submission carries a
    validated record, and the submitting flag is up exactly while a
    submission waits. *)
Definition Sound (d : Desk) : Prop :=
  (forall r, In (AddItem r) (calls (world d)) -> Validated r)
  /\ (forall p, pending (world d) = Some p ->
        Validated (newItem (p_formData p) (p_imagePreview p)))
  /\ (isSubmitting (state (world d)) = true <-> pending (world d) <> None).

(** The rejection [validateForm] gives when no image is staged. *)
Definition imageRejection (w : World) : Outcome bool * World :=
  (Return false,
   record (ToastError "Please upload an image for your listing") w).

(** A file [handleImageSelect] takes: an image of at most 10 MiB. *)
Definition acceptable (file : File) : Prop :=
  startsWith (file_type file) "image/" = true
  /\ file_size file <= 10485760.

End Staging.

(* ================================================================= *)
(** ** The key behind each sort order *)

Module Ordering.

(** The number by which [comparator sortBy] orders the listings, smaller
    first: the comparator is the difference of the keys of its two
    arguments. *)
Definition sortKey (sortBy : string) (item : MarketplaceItem) : number :=
  if String.eqb sortBy "price-low" then parseFloat (Item.price item)
  else if String.eqb sortBy "price-high" then
    neg (parseFloat (Item.price item))
  else if String.eqb sortBy "popular" then
    neg (of_int (Z.of_N (Item.likes item)))
  else if String.eqb sortBy "recent" then neg (of_int (Item.createdAt item))
  else zero.

(** The sort key orders by price. *)
Definition byPrice (sortBy : string) : Prop :=
  sortBy = "price-low" \/ sortBy = "price-high".

End Ordering.

(* ================================================================= *)
(** ** The price field *)

Module PriceField.
Import JsString.

(** The exponent of a floating-point number string, at the end of it:
    nothing, or [e] or [E], an optional sign, and digits. *)
Definition exponentOk (s : string) : bool :=
  match s with
  | EmptyString => true
  | String c r =>
      (Ascii.eqb c "e" || Ascii.eqb c "E")
      && let r1 := match r with
                   | String "-"%char t => t
                   | String "+"%char t => t
                   | _ => r
                   end in
         let '(ds, rest) := span isDigit r1 in
         truthy ds && negb (truthy rest)
  end.

(** Modelled from the HTML standard: the price is the value of an
    [<input type="number">], which the browser keeps to the empty string
    or a valid floating-point number: an optional [-], then digits, or a
    [.] and digits, or both, then an optional exponent. *)
Definition isFloatString (s : string) : bool :=
  let s1 := match s with
            | String "-"%char r => r
            | _ => s
            end in
  let '(ip, s2) := span isDigit s1 in
  match s2 with
  | String "."%char r =>
      let '(fp, s3) := span isDigit r in truthy fp && exponentOk s3
  | _ => truthy ip && exponentOk s2
  end.

(** What the price field of the form can hold. *)
Definition numberInputValue (s : string) : Prop :=
  s = "" \/ isFloatString s = true.

(** The price is there and parses to a number above zero. *)
Definition aboveZero (price : string) : Prop :=
  price <> "" /\ ltb zero (parseFloat price) = true.

(** The rejection [validateForm] gives for the price. *)
Definition priceRejection (w : CreateListingModal.World)
  : CreateListingModal.Outcome bool * CreateListingModal.World :=
  (CreateListingModal.Return false,
   CreateListingModal.record
     (CreateListingModal.ToastError "Please enter a valid price") w).

End PriceField.

(* ================================================================= *)
(** * Properties *)

(** ** Strings *)

Module JsStringFacts.
Import JsString.

Lemma startsWith_iff (s p : string) :
  startsWith s p = true <-> exists r, s = (p ++ r)%string.
Proof.
  revert s; induction p as [|a p IH]; intros s; simpl.
  - split; [intros _; now exists s | reflexivity].
  - destruct s as [|b s].
    + split; [discriminate | intros [r H]; discriminate].
    + rewrite andb_true_iff, Ascii.eqb_eq, IH. split.
      * intros [-> [r ->]]. now exists r.
      * intros [r H]. injection H as -> ->. split; [reflexivity | now exists r].
Qed.

Lemma isHexDigit_iff (c : ascii) :
  isHexDigit c = true <-> In c Spec.hexDigits.
Proof.
  destruct c as [[] [] [] [] [] [] [] []]; vm_compute;
    intuition (discriminate || congruence).
Qed.

Lemma forallb_isHexDigit_iff (s : string) :
  forallb isHexDigit s = true <-> Spec.allIn Spec.hexDigits s.
Proof.
  induction s as [|c s IH]; simpl; [tauto |].
  now rewrite andb_true_iff, isHexDigit_iff, IH.
Qed.

Lemma trim_truthy_of_nonblank (c : ascii) (s : string) :
  isWhiteSpace c = false -> truthy (trim (String c s)) = true.
Proof.
  intros H. unfold trim. simpl. rewrite H. simpl.
  destruct (trimEnd s); [rewrite H |]; reflexivity.
Qed.

End JsStringFacts.

(** ** Strings with their case *)

Module JsUnicodeFacts.
Import JsUnicode.

Lemma units_startsWith_iff (s p : ustring) :
  startsWith s p = true <-> exists r, s = (p ++ r)%list.
Proof.
  revert s; induction p as [|a p IH]; intros s; cbn [startsWith].
  - split; [intros _; now exists s | reflexivity].
  - destruct s as [|b s].
    + split; [discriminate | intros [r H]; discriminate].
    + rewrite andb_true_iff, N.eqb_eq, IH. split.
      * intros [-> [r ->]]. now exists r.
      * intros [r H]. injection H as -> ->. split; [reflexivity | now exists r].
Qed.

Lemma includes_iff (s t : ustring) :
  includes s t = true <-> exists pre post, s = (pre ++ t ++ post)%list.
Proof.
  induction s as [|c s IH]; cbn [includes];
    rewrite orb_true_iff, units_startsWith_iff.
  - split.
    + intros [[r H] | H]; [| discriminate]. now exists [], r.
    + intros [[|c pre] [post H]]; [left; now exists post | discriminate].
  - rewrite IH. split.
    + intros [[r H] | [pre [post H]]].
      * now exists [], r.
      * exists (c :: pre), post. cbn. now rewrite H.
    + intros [[|c' pre] [post H]]; cbn in H.
      * left. now exists post.
      * right. injection H as -> ->. now exists pre, post.
Qed.

Lemma includes_empty (s : ustring) : includes s [] = true.
Proof. destruct s; reflexivity. Qed.

(** *** Characters up to U+00FF *)

Lemma below_256 (f : N -> bool) :
  forallb f (map N.of_nat (seq 0 256)) = true ->
  forall c, (c < 256)%N -> f c = true.
Proof.
  intros H c Hc. rewrite forallb_forall in H. apply H.
  apply in_map_iff. exists (N.to_nat c). split; [apply N2Nat.id |].
  apply in_seq. lia.
Qed.

(** The lowercase mapping of a character up to U+00FF: a capital letter
    goes 32 further on, anything else stays. *)
Lemma simpleLower_latin1 (c : N) :
  (c < 256)%N ->
  (Spec.capitalLatin1 c /\ simpleLower c = (c + 32)%N)
  \/ (~ Spec.capitalLatin1 c /\ simpleLower c = c).
Proof.
  intros Hc.
  pose proof (below_256
    (fun c => if ((65 <=? c) && (c <=? 90)
                  || (192 <=? c) && (c <=? 222) && negb (c =? 215))%N
              then (simpleLower c =? c + 32)%N
              else (simpleLower c =? c)%N)
    ltac:(vm_compute; reflexivity) c Hc) as H.
  cbv beta in H. unfold Spec.capitalLatin1.
  destruct (N.leb_spec 65 c), (N.leb_spec c 90), (N.leb_spec 192 c),
    (N.leb_spec c 222), (N.eqb_spec c 215); cbn [andb orb negb] in H;
    apply N.eqb_eq in H; (left; split; [lia | exact H])
                         || (right; split; [lia | exact H]).
Qed.


Lemma simpleLower_below (c : N) : (c < 256)%N -> (simpleLower c < 256)%N.
Proof.
  intros Hc.
  destruct (simpleLower_latin1 c Hc) as [[C ->] | [_ ->]]; [| exact Hc].
  unfold Spec.capitalLatin1 in C. lia.
Qed.

Lemma codePoints_latin1 (s : ustring) : Spec.latin1 s -> codePoints s = s.
Proof.
  induction 1 as [|u r Hu Hr IH]; [reflexivity |]. cbn [codePoints].
  destruct r as [|l r']; [reflexivity |].
  assert (E : isHighSurrogate u = false).
  { unfold isHighSurrogate. destruct (N.leb_spec 55296 u); [lia | reflexivity]. }
  rewrite E. cbn [andb]. now rewrite IH.
Qed.

Lemma lowerFrom_latin1 (before s : ustring) :
  Spec.latin1 s -> lowerFrom before s = map simpleLower s.
Proof.
  intros H. revert before. induction H as [|c r Hc Hr IH]; intros before;
    [reflexivity |].
  cbn [lowerFrom map].
  destruct (N.eqb_spec c 931); [lia |].
  destruct (N.eqb_spec c 304); [lia |].
  cbn [app]. now rewrite IH.
Qed.

Lemma codeUnits_latin1 (s : ustring) : Spec.latin1 s -> codeUnits s = s.
Proof.
  induction 1 as [|c r Hc Hr IH]; [reflexivity |].
  unfold codeUnits in *. cbn [flat_map]. rewrite IH. unfold encode.
  destruct (N.ltb_spec c 65536); [reflexivity | lia].
Qed.

Lemma map_simpleLower_latin1 (s : ustring) :
  Spec.latin1 s -> Spec.latin1 (map simpleLower s).
Proof.
  unfold Spec.latin1. intros H. apply Forall_map.
  eapply Forall_impl; [| exact H]. intros c. apply simpleLower_below.
Qed.

(** On characters up to U+00FF, lower-casing goes character by
    character. *)
Lemma toLowerCase_latin1 (s : ustring) :
  Spec.latin1 s -> toLowerCase s = map simpleLower s.
Proof.
  intros H. unfold toLowerCase.
  rewrite (codePoints_latin1 s H), (lowerFrom_latin1 [] s H).
  apply codeUnits_latin1. now apply map_simpleLower_latin1.
Qed.

Lemma latin1_app (a b : ustring) :
  Spec.latin1 (a ++ b)%list <-> Spec.latin1 a /\ Spec.latin1 b.
Proof. apply Forall_app. Qed.

Lemma toLowerCase_app_latin1 (a b : ustring) :
  Spec.latin1 a -> Spec.latin1 b ->
  toLowerCase (a ++ b)%list = (toLowerCase a ++ toLowerCase b)%list.
Proof.
  intros Ha Hb.
  rewrite !toLowerCase_latin1 by (try apply latin1_app; auto).
  apply map_app.
Qed.



End JsUnicodeFacts.

(** ** Numbers *)

Module JsNumberFacts.
Import JsNumber.

Lemma round_half_even_ge (N D : Z) : N / D <= round_half_even N D.
Proof.
  unfold round_half_even.
  destruct (2 * (N mod D) <? D); [lia |].
  destruct (D <? 2 * (N mod D)); [lia |].
  destruct (Z.even (N / D)); lia.
Qed.

(** Rounding a positive count of units never reaches zero. *)
Lemma round_ratio_pos (N : Z) :
  0 < N ->
  round_ratio N 1 = PosInf \/ exists k, round_ratio N 1 = Fin k /\ 0 < k.
Proof.
  intros HN. unfold round_ratio. rewrite Z.div_1_r, Z.mul_1_l.
  set (s := Z.max 0 (Z.log2 N + 1 - 53)).
  assert (Hs : 0 <= s) by (unfold s; lia).
  assert (Hle : 2 ^ s <= N).
  { destruct (Z.log2_spec N HN) as [Hlo _].
    apply Z.le_trans with (2 ^ Z.log2 N); [| exact Hlo].
    apply Z.pow_le_mono_r; [lia |].
    pose proof (Z.log2_nonneg N). unfold s. lia. }
  assert (Hp : 0 < 2 ^ s) by (apply Z.pow_pos_nonneg; lia).
  assert (Hq : 1 <= N / 2 ^ s).
  { apply Z.div_le_lower_bound; lia. }
  pose proof (round_half_even_ge N (2 ^ s)) as Hr.
  destruct (overflow_units <=? round_half_even N (2 ^ s) * 2 ^ s);
    [now left | right].
  eexists; split; [reflexivity | nia].
Qed.

Lemma round_ratio_zero : round_ratio 0 1 = Fin 0.
Proof. reflexivity. Qed.

Lemma round_units_sign (z : Z) :
  isNaN (round_units z) = false
  /\ ltb (round_units z) zero = (z <? 0)
  /\ ltb zero (round_units z) = (0 <? z).
Proof.
  unfold round_units. destruct (Z.ltb_spec z 0) as [Hneg | Hnn].
  - destruct (round_ratio_pos (- z)) as [-> | (k & -> & Hk)]; [lia | |];
      simpl; repeat split; try reflexivity.
    + symmetry. apply Z.ltb_ge. lia.
    + apply Z.ltb_lt. lia.
    + unfold zero, ltb.
      destruct (Z.ltb_spec 0 (- k)), (Z.ltb_spec 0 z); lia || reflexivity.
  - destruct (Z.eq_dec z 0) as [-> | Hz].
    + rewrite round_ratio_zero. repeat split.
    + destruct (round_ratio_pos z) as [-> | (k & -> & Hk)]; [lia | |];
        simpl; repeat split; try reflexivity.
      * symmetry. apply Z.ltb_lt. lia.
      * apply Z.ltb_ge. lia.
      * unfold zero, ltb.
        destruct (Z.ltb_spec 0 k), (Z.ltb_spec 0 z); lia || reflexivity.
Qed.

(** The sign of a difference is the order of its operands. *)
Lemma sub_sign (x y : number) :
  isNaN x = false -> isNaN y = false ->
  ltb (sub x y) zero = ltb x y /\ ltb zero (sub x y) = ltb y x.
Proof.
  destruct x as [| |a|], y as [| |b|]; cbn [sub isNaN]; try discriminate;
    intros _ _; try (split; reflexivity).
  destruct (round_units_sign (a - b)) as (_ & -> & ->). cbn [ltb].
  split.
  - destruct (Z.ltb_spec (a - b) 0), (Z.ltb_spec a b); lia || reflexivity.
  - destruct (Z.ltb_spec 0 (a - b)), (Z.ltb_spec b a); lia || reflexivity.
Qed.

Lemma leb_total (x y : number) :
  isNaN x = false -> isNaN y = false -> leb x y = true \/ leb y x = true.
Proof.
  destruct x as [| |a|], y as [| |b|]; simpl; try discriminate;
    intros _ _; auto.
  destruct (Z.leb_spec a b), (Z.leb_spec b a); auto; lia.
Qed.

Lemma leb_trans (x y z : number) :
  leb x y = true -> leb y z = true -> leb x z = true.
Proof.
  destruct x as [| |a|], y as [| |b|], z as [| |c|]; simpl;
    try discriminate; try reflexivity.
  rewrite !Z.leb_le. lia.
Qed.

Lemma ltb_false_leb (x y : number) :
  isNaN x = false -> isNaN y = false -> ltb y x = false -> leb x y = true.
Proof.
  destruct x as [| |a|], y as [| |b|]; simpl; try discriminate;
    intros _ _; try reflexivity.
  rewrite Z.ltb_ge, Z.leb_le. lia.
Qed.

Lemma ltb_leb (x y : number) : ltb x y = true -> leb x y = true.
Proof.
  destruct x as [| |a|], y as [| |b|]; simpl; try discriminate;
    try reflexivity.
  rewrite Z.ltb_lt, Z.leb_le. lia.
Qed.

Lemma leb_antisym (x y : number) :
  leb x y = true -> leb y x = true -> x = y.
Proof.
  destruct x as [| |a|], y as [| |b|]; simpl; try discriminate;
    try reflexivity.
  rewrite !Z.leb_le. intros; f_equal; lia.
Qed.

Lemma of_int_leb (a b : Z) : leb (of_int a) (of_int b) = (a <=? b).
Proof.
  unfold of_int, leb, one_units.
  assert (0 < 2 ^ 1074) by (apply Z.pow_pos_nonneg; lia).
  destruct (Z.leb_spec (a * 2 ^ 1074) (b * 2 ^ 1074)), (Z.leb_spec a b);
    nia || reflexivity.
Qed.

End JsNumberFacts.

(** ** Sorting *)

Module JsArrayFacts.
Import JsNumber JsArray JsNumberFacts.

Section Sort.
Context {A : Type}.
Variable comparator : A -> A -> number.

Lemma insert_perm (x : A) (l : list A) :
  Permutation (insert comparator x l) (x :: l).
Proof.
  induction l as [|y r IH]; simpl; [reflexivity |].
  destruct (sortCompare comparator x y); try reflexivity.
  rewrite IH. apply perm_swap.
Qed.

Lemma sort_perm (l : list A) : Permutation (sort comparator l) l.
Proof.
  induction l as [|x r IH]; simpl; [reflexivity |].
  rewrite insert_perm. now constructor.
Qed.

(** The comparator of a difference of keys. *)
Lemma sortCompare_sub (x y : A) (u v : number) :
  comparator x y = sub u v -> isNaN u = false -> isNaN v = false ->
  sortCompare comparator x y =
  if ltb u v then Lt else if ltb v u then Gt else Eq.
Proof.
  intros E Hu Hv. unfold sortCompare. rewrite E.
  now destruct (sub_sign u v Hu Hv) as [-> ->].
Qed.

(** A comparator that always answers 0 leaves the array alone. *)
Lemma sort_constant_zero (l : list A) :
  (forall x y, comparator x y = zero) -> sort comparator l = l.
Proof.
  intros H. induction l as [|x r IH]; simpl; [reflexivity |].
  rewrite IH. destruct r as [|y r]; simpl; [reflexivity |].
  unfold sortCompare. now rewrite H.
Qed.

(** Stability: the elements of a class within which the comparator never
    answers "after" keep their relative order. *)
Section Stable.
Variable same : A -> bool.
Hypothesis same_ties :
  forall x y, same x = true -> same y = true ->
    sortCompare comparator x y <> Gt.

Lemma insert_stable (x : A) (l : list A) :
  filter same (insert comparator x l) = filter same (x :: l).
Proof.
  induction l as [|y r IH]; [reflexivity |].
  cbn [insert]. destruct (sortCompare comparator x y) eqn:E;
    try reflexivity.
  cbn [filter] in *. rewrite IH.
  destruct (same x) eqn:Ex, (same y) eqn:Ey; try reflexivity.
  exfalso. now apply (same_ties x y).
Qed.

Lemma sort_stable (l : list A) :
  filter same (sort comparator l) = filter same l.
Proof.
  induction l as [|x r IH]; [reflexivity |].
  cbn [sort]. rewrite insert_stable. cbn [filter]. now rewrite IH.
Qed.
End Stable.

Section Ordered.
Variable dom : A -> Prop.
Variable R : A -> A -> Prop.
Hypothesis R_trans : forall x y z, R x y -> R y z -> R x z.
Hypothesis compare_R :
  forall x y, dom x -> dom y ->
    match sortCompare comparator x y with
    | Gt => R y x
    | _ => R x y
    end.

Lemma insert_sorted (x : A) (l : list A) :
  dom x -> Forall dom l ->
  StronglySorted R l -> StronglySorted R (insert comparator x l).
Proof.
  intros Hx Hl Hs. induction Hs as [|y r Hs IH Hy]; simpl.
  - constructor; constructor.
  - inversion Hl as [|? ? Hdy Hdr]; subst.
    pose proof (compare_R x y Hx Hdy) as Hc.
    destruct (sortCompare comparator x y).
    + constructor; [now constructor |].
      constructor; [exact Hc |].
      eapply Forall_impl; [| exact Hy]. intros z. now apply R_trans.
    + constructor; [now constructor |].
      constructor; [exact Hc |].
      eapply Forall_impl; [| exact Hy]. intros z. now apply R_trans.
    + constructor; [now apply IH |].
      eapply Permutation_Forall;
        [symmetry; apply insert_perm | now constructor].
Qed.

Lemma sort_sorted (l : list A) :
  Forall dom l -> StronglySorted R (sort comparator l).
Proof.
  induction l as [|x r IH]; simpl; intros H; [constructor |].
  inversion H; subst. apply insert_sorted; auto.
  eapply Permutation_Forall; [symmetry; apply sort_perm | assumption].
Qed.
End Ordered.
End Sort.

(** Two arrangements of the same elements in a strict order coincide. *)
Lemma strictly_sorted_unique {A : Type} (R : A -> A -> Prop) :
  (forall x y, R x y -> R y x -> False) ->
  forall l1 l2 : list A,
    StronglySorted R l1 -> StronglySorted R l2 -> Permutation l1 l2 ->
    l1 = l2.
Proof.
  intros Hasym l1. induction l1 as [|a l1 IH]; intros l2 H1 H2 Hp.
  - apply Permutation_nil in Hp. now subst.
  - destruct l2 as [|b l2].
    + symmetry in Hp. now apply Permutation_nil in Hp.
    + apply StronglySorted_inv in H1 as [H1 Ha].
      apply StronglySorted_inv in H2 as [H2 Hb].
      assert (a = b) as ->.
      { assert (Ia : In a (b :: l2))
          by (eapply Permutation_in; [exact Hp | now left]).
        assert (Ib : In b (a :: l1))
          by (eapply Permutation_in; [symmetry; exact Hp | now left]).
        destruct Ia as [-> | Ia]; [reflexivity |].
        destruct Ib as [-> | Ib]; [reflexivity |].
        rewrite Forall_forall in Ha, Hb.
        exfalso. apply (Hasym a b); auto. }
      f_equal. apply IH; auto. now apply Permutation_cons_inv in Hp.
Qed.

Lemma StronglySorted_snoc {A : Type} (R : A -> A -> Prop) (l : list A)
    (a : A) :
  StronglySorted R l -> Forall (fun z => R z a) l ->
  StronglySorted R (l ++ [a]).
Proof.
  induction 1 as [|b r Hs IH Hb]; simpl; intros Ha.
  - constructor; constructor.
  - inversion Ha; subst. constructor; [now apply IH |].
    apply Forall_app. split; [assumption | now constructor].
Qed.

Lemma StronglySorted_rev {A : Type} (R : A -> A -> Prop) (l : list A) :
  StronglySorted R l -> StronglySorted (fun a b => R b a) (rev l).
Proof.
  induction 1 as [|a l Hs IH Ha]; simpl; [constructor |].
  apply StronglySorted_snoc; [exact IH | now apply Forall_rev].
Qed.

Lemma StronglySorted_weaken {A : Type} (R R' : A -> A -> Prop)
    (l : list A) :
  (forall a b, R a b -> R' a b) ->
  StronglySorted R l -> StronglySorted R' l.
Proof.
  intros H. induction 1 as [|a l Hs IH Ha]; constructor; [exact IH |].
  eapply Forall_impl; [| exact Ha]. intros b. apply H.
Qed.

(** With pairwise distinct keys, a sorted arrangement is strictly
    sorted. *)
Lemma StronglySorted_strict {A K : Type} (R : A -> A -> Prop)
    (key : A -> K) (l : list A) :
  StronglySorted R l -> NoDup (map key l) ->
  StronglySorted (fun a b => R a b /\ key a <> key b) l.
Proof.
  induction 1 as [|a l Hs IH Ha]; simpl; intros Hn; [constructor |].
  inversion Hn as [|? ? Hnot Hn']; subst.
  constructor; [now apply IH |].
  rewrite Forall_forall in *. intros z Hz. split; [now apply Ha |].
  intros E. apply Hnot. rewrite E. now apply in_map.
Qed.

End JsArrayFacts.

(** ** The listing browser *)

Module MarketplaceGridFacts.
Import JsString JsNumber JsArray MarketplaceGrid.
Import JsStringFacts JsNumberFacts JsArrayFacts.






(** *** Sorting *)

Lemma comparator_price_low (a b : MarketplaceItem) :
  comparator "price-low" a b = sub (Spec.priceValue a) (Spec.priceValue b).
Proof. reflexivity. Qed.

Lemma comparator_price_high (a b : MarketplaceItem) :
  comparator "price-high" a b = sub (Spec.priceValue b) (Spec.priceValue a).
Proof. reflexivity. Qed.

Lemma comparator_popular (a b : MarketplaceItem) :
  comparator "popular" a b =
  sub (of_int (Z.of_N (Item.likes b))) (of_int (Z.of_N (Item.likes a))).
Proof. reflexivity. Qed.

Lemma comparator_recent (a b : MarketplaceItem) :
  comparator "recent" a b =
  sub (of_int (Item.createdAt b)) (of_int (Item.createdAt a)).
Proof. reflexivity. Qed.

Lemma comparator_default (k : string) (a b : MarketplaceItem) :
  ~ Spec.knownSortKey k -> comparator k a b = zero.
Proof.
  unfold Spec.knownSortKey, comparator. intros H.
  repeat match goal with
         | |- context [String.eqb k ?x] =>
             destruct (String.eqb_spec k x); [exfalso; tauto |]
         end.
  reflexivity.
Qed.

Lemma priceAscending_trans (x y z : MarketplaceItem) :
  Spec.priceAscending x y -> Spec.priceAscending y z ->
  Spec.priceAscending x z.
Proof. unfold Spec.priceAscending. apply leb_trans. Qed.

Lemma priceDescending_trans (x y z : MarketplaceItem) :
  Spec.priceDescending x y -> Spec.priceDescending y z ->
  Spec.priceDescending x z.
Proof. unfold Spec.priceDescending. intros; eapply leb_trans; eauto. Qed.

Lemma sorted_price_low (l : list MarketplaceItem) :
  Spec.decimalPrices l ->
  StronglySorted Spec.priceAscending (sortedItems "price-low" l).
Proof.
  intros H. unfold sortedItems.
  apply sort_sorted with (dom := Spec.priced);
    [exact priceAscending_trans | | exact H].
  intros x y Hx Hy.
  rewrite (sortCompare_sub _ x y _ _ (comparator_price_low x y) Hx Hy).
  unfold Spec.priceAscending.
  destruct (ltb (Spec.priceValue x) (Spec.priceValue y)) eqn:E1;
    [now apply ltb_leb |].
  destruct (ltb (Spec.priceValue y) (Spec.priceValue x)) eqn:E2;
    [now apply ltb_leb | now apply ltb_false_leb].
Qed.

Lemma sorted_price_high (l : list MarketplaceItem) :
  Spec.decimalPrices l ->
  StronglySorted Spec.priceDescending (sortedItems "price-high" l).
Proof.
  intros H. unfold sortedItems.
  apply sort_sorted with (dom := Spec.priced);
    [exact priceDescending_trans | | exact H].
  intros x y Hx Hy.
  rewrite (sortCompare_sub _ x y _ _ (comparator_price_high x y) Hy Hx).
  unfold Spec.priceDescending.
  destruct (ltb (Spec.priceValue y) (Spec.priceValue x)) eqn:E1;
    [now apply ltb_leb |].
  destruct (ltb (Spec.priceValue x) (Spec.priceValue y)) eqn:E2;
    [now apply ltb_leb | now apply ltb_false_leb].
Qed.

Lemma of_int_ltb (a b : Z) : ltb (of_int a) (of_int b) = (a <? b).
Proof.
  unfold of_int, ltb, one_units.
  assert (0 < 2 ^ 1074) by (apply Z.pow_pos_nonneg; lia).
  destruct (Z.ltb_spec (a * 2 ^ 1074) (b * 2 ^ 1074)), (Z.ltb_spec a b);
    nia || reflexivity.
Qed.

(** Sorting by the difference of two integer keys, larger first. *)
Lemma sorted_int_descending (k : string) (key : MarketplaceItem -> Z)
    (l : list MarketplaceItem) :
  (forall a b, comparator k a b = sub (of_int (key b)) (of_int (key a))) ->
  StronglySorted (fun a b => key b <= key a) (sortedItems k l).
Proof.
  intros Hk. unfold sortedItems.
  apply sort_sorted with (dom := fun _ => True).
  - intros x y z. lia.
  - intros x y _ _.
    rewrite (sortCompare_sub _ x y _ _ (Hk x y) eq_refl eq_refl).
    rewrite !of_int_ltb.
    destruct (Z.ltb_spec (key y) (key x)); [lia |].
    destruct (Z.ltb_spec (key x) (key y)); lia.
  - rewrite Forall_forall. trivial.
Qed.

Lemma ltb_irrefl (x : number) : ltb x x = false.
Proof. destruct x as [| |a|]; simpl; try reflexivity. apply Z.ltb_irrefl. Qed.

Lemma eqb_eq (x y : number) : eqb x y = true -> x = y.
Proof.
  destruct x as [| |a|], y as [| |b|]; simpl; try discriminate;
    try reflexivity.
  intros H. apply Z.eqb_eq in H. now subst.
Qed.

Lemma eqb_not_NaN (x y : number) : eqb x y = true -> isNaN x = false.
Proof. destruct x, y; simpl; congruence. Qed.

(** Listings of equal price keep their order under both price keys,
    when every price parses to a number, so that the comparator is
    consistent. *)
Lemma sortedItems_price_stable (k : string) (v : number)
    (l : list MarketplaceItem) :
  k = "price-low" \/ k = "price-high" ->
  Spec.decimalPrices l ->
  filter (fun a => eqb (Spec.priceValue a) v) (sortedItems k l)
  = filter (fun a => eqb (Spec.priceValue a) v) l.
Proof.
  intros Hk _. unfold sortedItems. apply sort_stable.
  intros x y Hx Hy.
  pose proof (eqb_not_NaN _ _ Hx) as Nx.
  pose proof (eqb_not_NaN _ _ Hy) as Ny.
  apply eqb_eq in Hx, Hy.
  destruct Hk as [-> | ->].
  - rewrite (sortCompare_sub _ x y _ _ (comparator_price_low x y) Nx Ny).
    rewrite Hx, Hy, ltb_irrefl. discriminate.
  - rewrite (sortCompare_sub _ x y _ _ (comparator_price_high x y) Ny Nx).
    rewrite Hx, Hy, ltb_irrefl. discriminate.
Qed.

(** Listings of equal integer key keep their order. *)
Lemma sortedItems_int_stable (k : string) (key : MarketplaceItem -> Z)
    (v : Z) (l : list MarketplaceItem) :
  (forall a b, comparator k a b = sub (of_int (key b)) (of_int (key a))) ->
  filter (fun a => key a =? v) (sortedItems k l)
  = filter (fun a => key a =? v) l.
Proof.
  intros Hk. unfold sortedItems. apply sort_stable.
  intros x y Hx Hy. apply Z.eqb_eq in Hx, Hy.
  rewrite (sortCompare_sub _ x y _ _ (Hk x y) eq_refl eq_refl).
  rewrite Hx, Hy, ltb_irrefl. discriminate.
Qed.

(** C4: the sorted result is an arrangement of the filtered list that is
    ordered by descending createdAt for "recent", by ascending and by
    descending numeric price for "price-low" and "price-high" (the prices
    being decimal strings), by descending likes for "popular", and is the
    filtered list itself, unchanged, for any other key. *)
Theorem sortedItems_ordered (l : list MarketplaceItem) :
  (forall k, Permutation (sortedItems k l) l)
  /\ StronglySorted Spec.createdAtDescending (sortedItems "recent" l)
  /\ (Spec.decimalPrices l ->
      StronglySorted Spec.priceAscending (sortedItems "price-low" l))
  /\ (Spec.decimalPrices l ->
      StronglySorted Spec.priceDescending (sortedItems "price-high" l))
  /\ StronglySorted Spec.likesDescending (sortedItems "popular" l)
  /\ (forall k, ~ Spec.knownSortKey k -> sortedItems k l = l).
Proof.
  repeat split.
  - intros k. apply sort_perm.
  - apply (sorted_int_descending "recent" Item.createdAt).
    exact comparator_recent.
  - apply sorted_price_low.
  - apply sorted_price_high.
  - pose proof (sorted_int_descending "popular"
                  (fun i => Z.of_N (Item.likes i)) l comparator_popular) as H.
    eapply StronglySorted_weaken; [| exact H].
    unfold Spec.likesDescending. intros a b. simpl. lia.
  - intros k Hk. apply sort_constant_zero.
    intros x y. now apply comparator_default.
Qed.

End MarketplaceGridFacts.

Module MarketplaceGridOrder.
Import JsString JsNumber JsArray MarketplaceGrid.
Import JsStringFacts JsNumberFacts JsArrayFacts MarketplaceGridFacts.

(** A witness of [sortedItems_ordered]: the sample listings, sorted by
    rising price. *)
Lemma sortedItems_ordered_witness :
  Spec.decimalPrices Samples.listings
  /\ StronglySorted Spec.priceAscending
       (sortedItems "price-low" Samples.listings).
Proof.
  assert (H : Spec.decimalPrices Samples.listings)
    by (repeat constructor).
  split; [exact H |].
  exact (proj1 (proj2 (proj2 (sortedItems_ordered Samples.listings))) H).
Defined.

(** C5: when the prices of a filtered list are decimal strings of
    pairwise different numeric values, sorting it by "price-high" gives
    the reverse of sorting it by "price-low". *)
Theorem price_orders_reversed (l : list MarketplaceItem) :
  Spec.decimalPrices l ->
  NoDup (map Spec.priceValue l) ->
  sortedItems "price-high" l = rev (sortedItems "price-low" l).
Proof.
  intros Hp Hn.
  assert (Hperm : forall k, Permutation (sortedItems k l) l)
    by (intros k; apply sort_perm).
  pose proof (sorted_price_low l Hp) as Hlow.
  pose proof (sorted_price_high l Hp) as Hhigh.
  set (R := fun a b : MarketplaceItem =>
              Spec.priceDescending a b
              /\ Spec.priceValue a <> Spec.priceValue b).
  apply (strictly_sorted_unique R).
  - unfold R, Spec.priceDescending. intros x y [H1 N1] [H2 _].
    apply N1. now apply leb_antisym.
  - apply StronglySorted_strict; [exact Hhigh |].
    eapply Permutation_NoDup; [| exact Hn].
    apply Permutation_map. symmetry. apply Hperm.
  - apply StronglySorted_weaken
      with (R := fun a b => Spec.priceAscending b a
                            /\ Spec.priceValue b <> Spec.priceValue a).
    + unfold R, Spec.priceDescending, Spec.priceAscending.
      intros a b [H N]. split; [exact H | congruence].
    + apply (StronglySorted_rev
               (fun a b => Spec.priceAscending a b
                           /\ Spec.priceValue a <> Spec.priceValue b)).
      apply StronglySorted_strict; [exact Hlow |].
      eapply Permutation_NoDup; [| exact Hn].
      apply Permutation_map. symmetry. apply Hperm.
  - rewrite (Hperm "price-high"), <- Permutation_rev.
    symmetry. apply Hperm.
Qed.

Lemma Fin_neq (a b : Z) : (a =? b) = false -> Fin a <> Fin b.
Proof. intros H E. injection E as E. apply Z.eqb_neq in H. contradiction. Qed.

Lemma price_orders_reversed_witness :
  Spec.decimalPrices Samples.listings
  /\ NoDup (map Spec.priceValue Samples.listings)
  /\ sortedItems "price-high" Samples.listings
     = rev (sortedItems "price-low" Samples.listings).
Proof.
  assert (Hp : Spec.decimalPrices Samples.listings)
    by (repeat constructor).
  assert (Hn : NoDup (map Spec.priceValue Samples.listings)).
  { vm_compute.
    repeat (constructor;
            [simpl; intros H;
             repeat (destruct H as [H | H];
                     [revert H; apply Fin_neq; vm_compute; reflexivity |]);
             exact H |]).
    constructor. }
  split; [exact Hp | split; [exact Hn |]].
  exact (price_orders_reversed Samples.listings Hp Hn).
Defined.

(** C10: on every rendered card of a listing whose buyer address is
    present (defined and not empty, which is what the code tests),
    "Reserved for you" is shown whenever the session is connected,
    whoever the viewer is; whether it is shown is decided by the presence
    of the address and the connection alone. *)
Theorem reserved_indicator (session : Session)
    (currentUserAddress : JsUnicode.ustring)
    (items : list MarketplaceItem) (searchQuery : JsUnicode.ustring)
    (category sortBy : string) (card : Card) :
  In card (render session currentUserAddress items searchQuery category
             sortBy) ->
  card_reserved card
  = (truthyOpt (Item.escrowBuyerAddress (card_item card))
     && isConnected session)
  /\ (forall a,
        Item.escrowBuyerAddress (card_item card) = Some a -> a <> "" ->
        isConnected session = true -> card_reserved card = true).
Proof.
  unfold render. rewrite in_map_iff. intros (item & <- & _). simpl.
  split; [reflexivity |].
  intros a Ha Hne Hc. unfold reservedForYou. rewrite Ha, Hc. simpl.
  destruct a; [contradiction | reflexivity].
Qed.

Lemma reserved_indicator_witness :
  let session := Samples.session_open in
  let viewer := JsUnicode.units "0xb0b" in
  let card := {| card_item := Samples.song; card_own := false;
                 card_reserved := true |} in
  In card (render session viewer [Samples.song] [] "all" "recent")
  /\ card_reserved card = true.
Proof.
  intros session viewer card.
  assert (H : In card
                (render session viewer [Samples.song] [] "all" "recent")).
  { vm_compute. left. reflexivity. }
  split; [exact H |].
  exact (proj2 (reserved_indicator session viewer [Samples.song] [] "all"
                  "recent" card H)
           Samples.alice eq_refl
           ltac:(discriminate) eq_refl).
Defined.

End MarketplaceGridOrder.

(** ** The listing creator *)

Module CreateListingModalFacts.
Import JsString JsNumber CreateListingModal.
Import JsStringFacts JsNumberFacts.

(** *** The address shape *)

Lemma test_hex64_iff (s : string) :
  test_hex64 s = true <->
  String.length s = 64%nat /\ Spec.allIn Spec.hexDigits s.
Proof.
  unfold test_hex64.
  now rewrite andb_true_iff, Nat.eqb_eq, forallb_isHexDigit_iff.
Qed.

Lemma slice_2_prefixed (r : string) : slice 2 ("0x" ++ r) = r.
Proof. reflexivity. Qed.

Lemma startsWith_0x_prefixed (r : string) :
  startsWith ("0x" ++ r) "0x" = true.
Proof. reflexivity. Qed.

Lemma validateSuiAddress_prefixed (r : string) :
  validateSuiAddress ("0x" ++ r) = test_hex64 r.
Proof. reflexivity. Qed.

Lemma validateSuiAddress_bare (r : string) :
  startsWith r "0x" = false -> validateSuiAddress r = test_hex64 r.
Proof. unfold validateSuiAddress. now intros ->. Qed.

(** Hexadecimal digits never start with the prefix. *)
Lemma hex_not_prefixed (r : string) :
  Spec.allIn Spec.hexDigits r -> startsWith r "0x" = false.
Proof.
  intros H. destruct (startsWith r "0x") eqn:E; [| reflexivity].
  apply startsWith_iff in E as [t ->]. simpl in H.
  destruct H as (_ & Hx & _). exfalso.
  apply isHexDigit_iff in Hx. discriminate Hx.
Qed.

Lemma isHexDigit_not_blank (c : ascii) :
  isHexDigit c = true -> isWhiteSpace c = false.
Proof.
  destruct c as [[] [] [] [] [] [] [] []]; vm_compute;
    intros H; reflexivity || discriminate H.
Qed.

Lemma test_hex64_false_of_length (r : string) :
  String.length r <> 64%nat -> test_hex64 r = false.
Proof.
  intros H. destruct (test_hex64 r) eqn:E; [| reflexivity].
  apply test_hex64_iff in E. tauto.
Qed.

Lemma test_hex64_false_of_char (r : string) :
  ~ Spec.allIn Spec.hexDigits r -> test_hex64 r = false.
Proof.
  intros H. destruct (test_hex64 r) eqn:E; [| reflexivity].
  apply test_hex64_iff in E. tauto.
Qed.

Lemma validateSuiAddress_iff (a : string) :
  validateSuiAddress a = true <-> Spec.addressShape a.
Proof.
  unfold Spec.addressShape. split.
  - unfold validateSuiAddress. destruct (startsWith a "0x") eqn:E.
    + apply startsWith_iff in E as [r ->]. rewrite slice_2_prefixed.
      rewrite test_hex64_iff. intros [Hl Hh]. exists r. auto.
    + rewrite test_hex64_iff. intros [Hl Hh]. exists a. auto.
  - intros (r & [-> | ->] & Hl & Hh).
    + rewrite validateSuiAddress_bare by now apply hex_not_prefixed.
      now apply test_hex64_iff.
    + rewrite validateSuiAddress_prefixed. now apply test_hex64_iff.
Qed.

Lemma validateSuiAddress_nonblank (a : string) :
  validateSuiAddress a = true -> truthy (trim a) = true.
Proof.
  intros H. apply validateSuiAddress_iff in H.
  destruct H as (r & [-> | ->] & Hl & Hh).
  - destruct r as [|c r]; [discriminate Hl |].
    apply trim_truthy_of_nonblank, isHexDigit_not_blank, isHexDigit_iff.
    exact (proj1 Hh).
  - now apply trim_truthy_of_nonblank.
Qed.

(** C2: the buyer-address checks of the form (the field is not blank and
    [validateSuiAddress] holds) accept an address exactly when, an
    optional leading "0x" being stripped, 64 characters remain, all of
    them hexadecimal digits.  So "0x" followed by 64 hexadecimal digits
    passes, a remainder of 63 characters fails, and a remainder with a
    character that is no hexadecimal digit fails. *)
Theorem escrow_address_accepted_iff (a : string) :
  (truthy (trim a) && validateSuiAddress a = true <-> Spec.addressShape a)
  /\ (forall r, String.length r = 64%nat -> Spec.allIn Spec.hexDigits r ->
        validateSuiAddress ("0x" ++ r) = true /\ validateSuiAddress r = true)
  /\ (forall r, String.length r = 63%nat ->
        validateSuiAddress ("0x" ++ r) = false
        /\ validateSuiAddress r = false)
  /\ (forall r, ~ Spec.allIn Spec.hexDigits r ->
        validateSuiAddress ("0x" ++ r) = false
        /\ (startsWith r "0x" = false -> validateSuiAddress r = false)).
Proof.
  repeat split.
  - rewrite andb_true_iff. intros [_ H]. now apply validateSuiAddress_iff.
  - intros H. apply validateSuiAddress_iff in H. rewrite H.
    now rewrite (validateSuiAddress_nonblank a H).
  - apply validateSuiAddress_iff. exists r. auto.
  - apply validateSuiAddress_iff. exists r. auto.
  - rewrite validateSuiAddress_prefixed.
    apply test_hex64_false_of_length. lia.
  - destruct (validateSuiAddress r) eqn:E; [| reflexivity].
    apply validateSuiAddress_iff in E.
    destruct E as (t & [-> | ->] & Hl & _); simpl in *; lia.
  - rewrite validateSuiAddress_prefixed.
    now apply test_hex64_false_of_char.
  - intros Hs. rewrite (validateSuiAddress_bare r Hs).
    now apply test_hex64_false_of_char.
Qed.

Lemma escrow_address_accepted_iff_witness :
  validateSuiAddress Samples.alice = true
  /\ validateSuiAddress (slice 2 Samples.alice) = true.
Proof.
  apply (proj1 (proj2 (escrow_address_accepted_iff ""))
           (slice 2 Samples.alice)).
  - reflexivity.
  - apply forallb_isHexDigit_iff. vm_compute. reflexivity.
Defined.

(** *** Validation *)

(** [validateForm] shows the rejection of the first rule that fails and
    answers false, or shows nothing and answers true. *)
Lemma validateForm_firstFailure (s : State) (w : World) :
  validateForm s w =
  match Spec.firstFailure (Spec.rules s) with
  | Some m => (Return false, record (ToastError m) w)
  | None => (Return true, w)
  end.
Proof.
  unfold validateForm, Spec.rules.
  destruct (isNull (selectedImage s)); [reflexivity |].
  destruct (falsyOpt (imagePreview s)); [reflexivity |].
  cbn [orb negb andb app Spec.firstFailure].
  destruct (truthy (trim (Form.title (formData s)))); [| reflexivity].
  destruct (truthy (trim (Form.description (formData s)))); [| reflexivity].
  cbn [negb Spec.firstFailure].
  destruct (truthy (Form.price (formData s))); [| reflexivity].
  destruct (leb (parseFloat (Form.price (formData s))) zero);
    [reflexivity |].
  cbn [orb negb andb Spec.firstFailure].
  destruct (Form.listingType (formData s)); [reflexivity |].
  cbn [ListingType_eqb app Spec.firstFailure].
  destruct (truthy (trim (Form.escrowBuyerAddress (formData s))));
    [| reflexivity].
  destruct (validateSuiAddress (Form.escrowBuyerAddress (formData s)));
    reflexivity.
Qed.

Lemma rules_messages_distinct (s : State) :
  NoDup (map snd (Spec.rules s)).
Proof.
  unfold Spec.rules. destruct (Form.listingType (formData s)); simpl;
    repeat (constructor; [simpl; intuition discriminate |]);
    constructor.
Qed.

(** C8: [validateForm] applies the rules in the order image, title,
    description, price and, for an escrow listing, buyer address present
    then buyer address well shaped; it shows the rejection of the first
    rule that fails, and only that one, and answers false; the
    rejections of the rules are pairwise different; and a form without
    a staged image is rejected whatever its fields hold. *)
Theorem validateForm_ordered :
  (forall s w,
      validateForm s w =
      match Spec.firstFailure (Spec.rules s) with
      | Some m => (Return false, record (ToastError m) w)
      | None => (Return true, w)
      end)
  /\ (forall s, NoDup (map snd (Spec.rules s)))
  /\ (forall s w,
        selectedImage s = None \/ imagePreview s = None ->
        validateForm s w =
        (Return false,
         record (ToastError "Please upload an image for your listing") w)).
Proof.
  split; [exact validateForm_firstFailure |].
  split; [exact rules_messages_distinct |].
  intros s w H. unfold validateForm.
  destruct H as [-> | ->]; [reflexivity |].
  destruct (isNull (selectedImage s)); reflexivity.
Qed.

Lemma validateForm_ordered_witness :
  validateForm initialState initialWorld =
  (Return false,
   record (ToastError "Please upload an image for your listing")
     initialWorld).
Proof.
  apply (proj2 (proj2 validateForm_ordered) initialState initialWorld).
  left. reflexivity.
Defined.

(** Beyond what the price field can hold: a price that is no number at
    all passes the price rule, since [parseFloat] gives NaN and NaN is
    not at or below zero. *)
Theorem price_not_a_number_accepted :
  let w := Samples.filled (Samples.form "abc" standard "") in
  parseFloat "abc" = NaN
  /\ validateForm (state w) w = (Return true, w).
Proof. vm_compute. split; reflexivity. Qed.

(** The prices the specification names: "0" and "-1" are rejected with
    the price message, "0.01" is accepted. *)
Lemma price_examples :
  let w p := Samples.filled (Samples.form p standard "") in
  validateForm (state (w "0")) (w "0")
  = (Return false, record (ToastError "Please enter a valid price") (w "0"))
  /\ validateForm (state (w "-1")) (w "-1")
     = (Return false,
        record (ToastError "Please enter a valid price") (w "-1"))
  /\ validateForm (state (w "0.01")) (w "0.01") = (Return true, w "0.01")
  /\ validateForm (state (w "")) (w "")
     = (Return false, record (ToastError "Please enter a valid price") (w "")).
Proof. vm_compute. repeat split. Qed.

(** What the price rule decides: it rejects an empty price and a price
    whose parse is a number not above zero, and nothing else. *)
Lemma price_rule_rejects_iff (p : string) :
  negb (truthy p) || leb (parseFloat p) zero = true <->
  p = "" \/ (isNaN (parseFloat p) = false /\ ltb zero (parseFloat p) = false).
Proof.
  destruct p as [|c p]; [simpl; tauto |].
  cbn [truthy negb orb].
  split.
  - intros H. right. destruct (parseFloat (String c p)) as [| |k|];
      simpl in *; try discriminate; split; try reflexivity.
    apply Z.ltb_ge. apply Z.leb_le in H. exact H.
  - intros [H | [H1 H2]]; [discriminate |].
    destruct (parseFloat (String c p)) as [| |k|];
      simpl in *; try discriminate; try reflexivity.
    apply Z.leb_le. apply Z.ltb_ge in H2. exact H2.
Qed.

(** *** Submission *)

Lemma validateForm_passes (s : State) (w : World) :
  fst (validateForm s w) = Return true ->
  validateForm s w = (Return true, w).
Proof.
  rewrite validateForm_firstFailure.
  destruct (Spec.firstFailure (Spec.rules s)); [discriminate | reflexivity].
Qed.

(** The world in which a submission waits for its delay. *)
Lemma step_Submit_valid (w : World) :
  isSubmitting (state w) = false ->
  fst (validateForm (state w) w) = Return true ->
  step Submit w =
  {| state := {| isSubmitting := true;
                 formData := formData (state w);
                 selectedImage := selectedImage (state w);
                 imagePreview := imagePreview (state w);
                 isDragging := isDragging (state w) |};
     calls := calls w;
     pending := Some {| p_formData := formData (state w);
                        p_imagePreview := imagePreview (state w) |};
     resetTimers := resetTimers w |}.
Proof.
  intros Hs Hv. unfold step. rewrite Hs.
  unfold handleSubmit_begin, bind.
  now rewrite (validateForm_passes _ _ Hv).
Qed.

(** C6: when a form that passes validation is submitted and the
    submission succeeds, the store's [addItem] is called once, with a
    record whose escrowBuyerAddress is the form's buyer address when the
    form's listingType is escrow and is absent when it is standard. *)
Theorem submitted_record (w : World) (env : Env) :
  isSubmitting (state w) = false ->
  fst (validateForm (state w) w) = Return true ->
  delayRejects env = false -> addItemThrows env = false ->
  let d := formData (state w) in
  exists r,
    calls (run [Submit; DelaySettles env] w)
    = (calls w ++ [AddItem r;
                   ToastSuccess (successMessage (Form.listingType d));
                   OnClose])%list
    /\ New.escrowBuyerAddress r
       = match Form.listingType d with
         | escrow => Some (Form.escrowBuyerAddress d)
         | standard => None
         end
    /\ (New.escrowBuyerAddress r <> None <-> Form.listingType d = escrow).
Proof.
  intros Hs Hv Hd Ha d. unfold run, fold_left.
  rewrite (step_Submit_valid w Hs Hv).
  exists (newItem d (imagePreview (state w))).
  split; [| split].
  - unfold step, handleSubmit_resume. cbn [pending p_formData p_imagePreview].
    unfold bind, tryCatchFinally, awaited, addItem, bind.
    rewrite Hd, Ha. cbn. rewrite <- !app_assoc. reflexivity.
  - reflexivity.
  - cbn [newItem New.escrowBuyerAddress]. fold d.
    destruct (Form.listingType d); split; congruence.
Qed.

Lemma submitted_record_witness :
  let w := Samples.filled (Samples.form "2.5" escrow Samples.alice) in
  exists r,
    calls (run [Submit; DelaySettles Samples.quiet] w)
    = (calls w
       ++ [AddItem r; ToastSuccess (successMessage escrow); OnClose])%list
    /\ New.escrowBuyerAddress r = Some Samples.alice
    /\ (New.escrowBuyerAddress r <> None <-> escrow = escrow).
Proof.
  intros w.
  apply (submitted_record w Samples.quiet); vm_compute; reflexivity.
Defined.

(** C7: when the awaited step or the store's [addItem] throws, the
    failure is caught: the failure notification is shown, [onClose] is
    not called and no success is announced, the form fields and the
    staged image are what they were before the submission, and the
    submitting flag is down again. *)
Theorem failed_submission_keeps_form (w : World) (env : Env) :
  isSubmitting (state w) = false ->
  fst (validateForm (state w) w) = Return true ->
  delayRejects env = true \/ addItemThrows env = true ->
  let w' := run [Submit; DelaySettles env] w in
  fst (handleSubmit_resume env (step Submit w)) = Return tt
  /\ state w' = state w
  /\ exists extra,
       calls w' = (calls w ++ extra)%list
       /\ In (ToastError "Failed to create listing. Please try again.") extra
       /\ ~ In OnClose extra
       /\ (forall m, ~ In (ToastSuccess m) extra).
Proof.
  intros Hs Hv Hf w'. subst w'. unfold run, fold_left.
  rewrite (step_Submit_valid w Hs Hv).
  unfold step, handleSubmit_resume. cbn [pending p_formData p_imagePreview].
  unfold bind, tryCatchFinally, awaited, addItem, bind.
  assert (Hstate :
    {| isSubmitting := false; formData := formData (state w);
       selectedImage := selectedImage (state w);
       imagePreview := imagePreview (state w);
       isDragging := isDragging (state w) |} = state w).
  { destruct (state w) as [sub fd si ip dr]. simpl in Hs. now subst sub. }
  destruct (delayRejects env) eqn:Hd.
  - cbn. split; [reflexivity |]. split; [exact Hstate |].
    eexists. rewrite <- app_assoc. split; [reflexivity |].
    simpl. split; [auto |].
    split; [intros [H | [H | []]]; discriminate H |].
    intros m [H | [H | []]]; discriminate H.
  - destruct Hf as [Hf | Hf]; [discriminate Hf |]. rewrite Hf.
    cbn. split; [reflexivity |]. split; [exact Hstate |].
    eexists. rewrite <- !app_assoc. split; [reflexivity |].
    simpl. split; [auto |].
    split; [intros [H | [H | [H | []]]]; discriminate H |].
    intros m [H | [H | [H | []]]]; discriminate H.
Qed.

Lemma failed_submission_keeps_form_witness :
  let w := Samples.filled (Samples.form "2.5" escrow Samples.alice) in
  state (run [Submit; DelaySettles Samples.storeFails] w) = state w.
Proof.
  intros w.
  refine (proj1 (proj2 (failed_submission_keeps_form
                          w Samples.storeFails _ _ _))).
  - reflexivity.
  - vm_compute. reflexivity.
  - right. reflexivity.
Defined.

(** *** Closing *)

Lemma handleClose_submitting (w : World) :
  isSubmitting (state w) = true -> handleClose w = (Return tt, w).
Proof. intros H. unfold handleClose. now rewrite H. Qed.

Lemma closes_submitting (w : World) (n : nat) :
  isSubmitting (state w) = true -> run (repeat Close n) w = w.
Proof.
  intros H.
  assert (Hstep : step Close w = w)
    by (unfold step; now rewrite handleClose_submitting).
  unfold run. induction n as [|n IH]; [reflexivity |].
  cbn [repeat fold_left]. rewrite Hstep. exact IH.
Qed.

(** C9: while the submitting flag is set, [handleClose] does nothing: it
    neither calls [onClose] nor schedules the reset of the form, however
    often it is invoked. *)
Theorem close_ignored_while_submitting (w : World) (n : nat) :
  isSubmitting (state w) = true ->
  handleClose w = (Return tt, w)
  /\ run (repeat Close n) w = w.
Proof.
  intros H. split.
  - now apply handleClose_submitting.
  - now apply closes_submitting.
Qed.

Lemma close_ignored_while_submitting_witness :
  let w := step Submit
             (Samples.filled (Samples.form "2.5" escrow Samples.alice)) in
  isSubmitting (state w) = true
  /\ run (repeat Close 3) w = w.
Proof.
  intros w.
  assert (H : isSubmitting (state w) = true) by (vm_compute; reflexivity).
  split; [exact H |].
  exact (proj2 (close_ignored_while_submitting w 3 H)).
Defined.

(** The flag is set from the start of a valid submission until its
    delay settles, so closing in between changes nothing of the
    outcome. *)
Lemma close_during_submission (w : World) (env : Env) (n : nat) :
  isSubmitting (state w) = false ->
  fst (validateForm (state w) w) = Return true ->
  run (Submit :: repeat Close n ++ [DelaySettles env]) w
  = run [Submit; DelaySettles env] w.
Proof.
  intros Hs Hv. unfold run. cbn [fold_left].
  rewrite fold_left_app. cbn [fold_left]. f_equal.
  apply closes_submitting.
  now rewrite (step_Submit_valid w Hs Hv).
Qed.

End CreateListingModalFacts.

(** ** The number model on known values *)

Module JsNumberExamples.
Import JsNumber.

Example parseFloat_tenth :
  parseFloat "0.1" = Fin (7205759403792794 * 2 ^ 1018).
Proof. vm_compute. reflexivity. Qed.

Example parseFloat_prefix : parseFloat " -1.5e0x" = Fin (- 3 * 2 ^ 1073).
Proof. vm_compute. reflexivity. Qed.

Example parseFloat_largest :
  parseFloat "1.7976931348623157e308" = Fin ((2 ^ 53 - 1) * 2 ^ 2045)
  /\ parseFloat "1.7976931348623159e308" = PosInf.
Proof. vm_compute. split; reflexivity. Qed.

Example parseFloat_smallest :
  parseFloat "5e-324" = Fin 1
  /\ parseFloat "2.4703282292062328e-324" = Fin 1
  /\ parseFloat "2.4703282292062327e-324" = Fin 0.
Proof. vm_compute. repeat split. Qed.

Example parseFloat_ties_to_even :
  parseFloat "9007199254740993" = Fin (9007199254740992 * 2 ^ 1074).
Proof. vm_compute. reflexivity. Qed.

Example parseFloat_no_number :
  parseFloat "abc" = NaN /\ parseFloat "." = NaN /\ parseFloat "" = NaN
  /\ parseFloat "-Infinity" = NegInf /\ parseFloat "1.e2" = of_int 100.
Proof. vm_compute. repeat split. Qed.

Example parseInt_durations :
  parseInt "3" = of_int 3 /\ parseInt "7" = of_int 7
  /\ parseInt "14" = of_int 14 /\ parseInt "30" = of_int 30
  /\ parseInt "0x1F" = of_int 31 /\ parseInt "days" = NaN.
Proof. vm_compute. repeat split. Qed.

Example sub_of_tenths :
  sub (parseFloat "0.3") (parseFloat "0.1")
  = Fin (7205759403792793 * 2 ^ 1019).
Proof. vm_compute. reflexivity. Qed.

End JsNumberExamples.

(* ================================================================= *)
(** * Further properties of the listing browser *)

Module SortLaws.
Import JsNumber JsArray JsNumberFacts JsArrayFacts.

Lemma sub_neg (x y : number) : sub (neg x) (neg y) = sub y x.
Proof.
  destruct x as [| |a|], y as [| |b|]; simpl; try reflexivity.
  f_equal. lia.
Qed.

Lemma isNaN_neg (x : number) : isNaN (neg x) = isNaN x.
Proof. now destruct x. Qed.

Lemma ltb_leb_false (x y : number) :
  ltb y x = true -> leb x y = true -> False.
Proof.
  destruct x as [| |a|], y as [| |b|]; simpl; try discriminate.
  rewrite Z.ltb_lt, Z.leb_le. lia.
Qed.

Section Keyed.
Context {A : Type}.
Variable comparator : A -> A -> number.
Variable key : A -> number.
Hypothesis comparator_key :
  forall a b, comparator a b = sub (key a) (key b).

Let defined (a : A) : Prop := isNaN (key a) = false.
Let ordered (a b : A) : Prop := leb (key a) (key b) = true.

Lemma sortCompare_key (x y : A) :
  defined x -> defined y ->
  sortCompare comparator x y =
  if ltb (key x) (key y) then Lt else if ltb (key y) (key x) then Gt else Eq.
Proof. intros Hx Hy. now apply sortCompare_sub. Qed.

Lemma ordered_compare (x y : A) :
  defined x -> defined y ->
  match sortCompare comparator x y with
  | Gt => ordered y x
  | _ => ordered x y
  end.
Proof.
  intros Hx Hy. rewrite (sortCompare_key x y Hx Hy). unfold ordered.
  destruct (ltb (key x) (key y)) eqn:E1; [now apply ltb_leb |].
  destruct (ltb (key y) (key x)) eqn:E2;
    [now apply ltb_leb | now apply ltb_false_leb].
Qed.

Lemma ordered_not_after (x y : A) :
  defined x -> defined y -> ordered x y ->
  sortCompare comparator x y <> Gt.
Proof.
  intros Hx Hy Ho. rewrite (sortCompare_key x y Hx Hy).
  destruct (ltb (key x) (key y)); [discriminate |].
  destruct (ltb (key y) (key x)) eqn:E; [| discriminate].
  exfalso. exact (ltb_leb_false _ _ E Ho).
Qed.

Lemma ordered_trans (x y z : A) : ordered x y -> ordered y z -> ordered x z.
Proof. apply leb_trans. Qed.

Lemma sort_ordered (l : list A) :
  Forall defined l -> StronglySorted ordered (sort comparator l).
Proof.
  apply sort_sorted; [exact ordered_trans | exact ordered_compare].
Qed.

(** An element that goes before everything already there is put in
    front. *)
Lemma insert_front (x : A) (l : list A) :
  defined x -> Forall defined l -> Forall (ordered x) l ->
  insert comparator x l = x :: l.
Proof.
  intros Hx Hl Ho. destruct l as [|y r]; [reflexivity |].
  inversion Hl; inversion Ho; subst. cbn [insert].
  pose proof (ordered_not_after x y Hx) as H.
  destruct (sortCompare comparator x y); try reflexivity.
  exfalso. now apply H.
Qed.

Lemma sort_of_sorted (l : list A) :
  Forall defined l -> StronglySorted ordered l -> sort comparator l = l.
Proof.
  intros Hl Hs. induction Hs as [|x r Hs IH Hx]; [reflexivity |].
  inversion Hl; subst. cbn [sort]. rewrite IH by assumption.
  now apply insert_front.
Qed.

Lemma insert_filter (p : A -> bool) (x : A) (l : list A) :
  defined x -> Forall defined l -> StronglySorted ordered l ->
  filter p (insert comparator x l) =
  if p x then insert comparator x (filter p l) else filter p l.
Proof.
  intros Hx Hl Hs. induction Hs as [|y r Hs IH Hy].
  - cbn. now destruct (p x).
  - inversion Hl as [|? ? Hdy Hdr]; subst. cbn [insert].
    pose proof (ordered_compare x y Hx Hdy) as Hc.
    destruct (sortCompare comparator x y) eqn:E.
    + (* x is put in front of y *)
      change (filter p (x :: y :: r))
        with (if p x then x :: filter p (y :: r) else filter p (y :: r)).
      destruct (p x); [| reflexivity].
      symmetry. apply insert_front; [exact Hx | |].
      * apply Forall_forall. intros z Hz.
        apply filter_In in Hz as [Hz _].
        rewrite Forall_forall in Hl. now apply Hl.
      * apply Forall_forall. intros z Hz.
        apply filter_In in Hz as [[<- | Hz] _]; [exact Hc |].
        rewrite Forall_forall in Hy.
        eapply ordered_trans; [exact Hc | now apply Hy].
    + change (filter p (x :: y :: r))
        with (if p x then x :: filter p (y :: r) else filter p (y :: r)).
      destruct (p x); [| reflexivity].
      symmetry. apply insert_front; [exact Hx | |].
      * apply Forall_forall. intros z Hz.
        apply filter_In in Hz as [Hz _].
        rewrite Forall_forall in Hl. now apply Hl.
      * apply Forall_forall. intros z Hz.
        apply filter_In in Hz as [[<- | Hz] _]; [exact Hc |].
        rewrite Forall_forall in Hy.
        eapply ordered_trans; [exact Hc | now apply Hy].
    + (* x goes after y *)
      cbn [filter]. rewrite (IH Hdr).
      destruct (p y) eqn:Py, (p x) eqn:Px; try reflexivity.
      cbn [insert]. now rewrite E.
Qed.

(** Filtering a sorted array is sorting the filtered array. *)
Lemma sort_filter (p : A -> bool) (l : list A) :
  Forall defined l ->
  sort comparator (filter p l) = filter p (sort comparator l).
Proof.
  induction l as [|x r IH]; intros Hl; [reflexivity |].
  inversion Hl as [|? ? Hx Hr]; subst. cbn [sort filter].
  rewrite insert_filter.
  - destruct (p x); cbn [sort]; now rewrite IH.
  - exact Hx.
  - eapply Permutation_Forall; [symmetry; apply sort_perm | exact Hr].
  - now apply sort_ordered.
Qed.

Lemma sort_idempotent (l : list A) :
  Forall defined l ->
  sort comparator (sort comparator l) = sort comparator l.
Proof.
  intros Hl. apply sort_of_sorted.
  - eapply Permutation_Forall; [symmetry; apply sort_perm | exact Hl].
  - now apply sort_ordered.
Qed.
End Keyed.

End SortLaws.

Module MarketplaceGridLaws.
Import JsString JsNumber JsArray MarketplaceGrid Ordering.
Import JsStringFacts JsNumberFacts JsArrayFacts MarketplaceGridFacts SortLaws.

Lemma comparator_sortKey (k : string) (a b : MarketplaceItem) :
  comparator k a b = sub (sortKey k a) (sortKey k b).
Proof.
  unfold comparator, sortKey.
  destruct (String.eqb k "price-low"); [reflexivity |].
  destruct (String.eqb k "price-high"); [now rewrite sub_neg |].
  destruct (String.eqb k "popular"); [now rewrite sub_neg |].
  destruct (String.eqb k "recent"); [now rewrite sub_neg |].
  reflexivity.
Qed.

Lemma sortKey_defined (k : string) (l : list MarketplaceItem) :
  (byPrice k -> Spec.decimalPrices l) ->
  Forall (fun item => isNaN (sortKey k item) = false) l.
Proof.
  intros H. unfold sortKey, byPrice in *.
  destruct (String.eqb_spec k "price-low") as [-> | _].
  - apply H. now left.
  - destruct (String.eqb_spec k "price-high") as [-> | _].
    + eapply Forall_impl; [| apply H; now right].
      intros item Hi. now rewrite isNaN_neg.
    + apply Forall_forall. intros item _.
      destruct (String.eqb k "popular"); [reflexivity |].
      destruct (String.eqb k "recent"); reflexivity.
Qed.

Lemma filter_filter {A : Type} (f g : A -> bool) (l : list A) :
  filter f (filter g l) = filter (fun x => g x && f x) l.
Proof.
  induction l as [|x r IH]; [reflexivity |]. cbn [filter].
  destruct (g x); cbn [filter andb]; [now rewrite IH | exact IH].
Qed.

Lemma filter_length_split {A : Type} (f : A -> bool) (l : list A) :
  (List.length (filter f l)
   + List.length (filter (fun x => negb (f x)) l))%nat = List.length l.
Proof.
  induction l as [|x r IH]; [reflexivity |]. cbn [filter].
  destruct (f x); cbn [negb List.length]; lia.
Qed.

Lemma matchesSearch_empty (item : MarketplaceItem) :
  matchesSearch [] item = true.
Proof.
  unfold matchesSearch.
  change (JsUnicode.toLowerCase []) with (@nil N).
  now rewrite JsUnicodeFacts.includes_empty.
Qed.

Lemma matchesCategory_all (item : MarketplaceItem) :
  matchesCategory "all" item = true.
Proof. reflexivity. Qed.

Lemma includes_part (s pre t post : JsUnicode.ustring) :
  JsUnicode.includes s (pre ++ t ++ post)%list = true ->
  JsUnicode.includes s t = true.
Proof.
  rewrite !JsUnicodeFacts.includes_iff. intros (a & b & ->).
  exists (a ++ pre)%list, (post ++ b)%list.
  now rewrite <- !app_assoc.
Qed.

Lemma matchesSearch_part (pre q post : JsUnicode.ustring)
    (item : MarketplaceItem) :
  Spec.latin1 pre -> Spec.latin1 q -> Spec.latin1 post ->
  matchesSearch (pre ++ q ++ post)%list item = true ->
  matchesSearch q item = true.
Proof.
  intros Hpre Hq Hpost. unfold matchesSearch.
  rewrite !orb_true_iff,
    !JsUnicodeFacts.toLowerCase_app_latin1
      by (try apply JsUnicodeFacts.latin1_app; auto).
  intros [H | H]; [left | right]; eapply includes_part; exact H.
Qed.

(** X1: sorting is stable under every key: the listings that share a
    price keep their order under "price-low" and "price-high" (the prices
    being decimal strings), those that share a number of likes keep it
    under "popular", and those created at the same time keep it under
    "recent". *)
Theorem sortedItems_keeps_ties (l : list MarketplaceItem) :
  (Spec.decimalPrices l ->
   forall v,
     filter (fun a => eqb (parseFloat (Item.price a)) v)
       (sortedItems "price-low" l)
     = filter (fun a => eqb (parseFloat (Item.price a)) v) l)
  /\ (Spec.decimalPrices l ->
      forall v,
        filter (fun a => eqb (parseFloat (Item.price a)) v)
          (sortedItems "price-high" l)
        = filter (fun a => eqb (parseFloat (Item.price a)) v) l)
  /\ (forall n,
        filter (fun a => N.eqb (Item.likes a) n) (sortedItems "popular" l)
        = filter (fun a => N.eqb (Item.likes a) n) l)
  /\ (forall t,
        filter (fun a => Z.eqb (Item.createdAt a) t) (sortedItems "recent" l)
        = filter (fun a => Z.eqb (Item.createdAt a) t) l).
Proof.
  split; [| split; [| split]].
  - intros H v. apply (sortedItems_price_stable "price-low");
      [now left | exact H].
  - intros H v. apply (sortedItems_price_stable "price-high");
      [now right | exact H].
  - intros n.
    pose proof (sortedItems_int_stable "popular"
                  (fun i => Z.of_N (Item.likes i)) (Z.of_N n) l
                  comparator_popular) as H.
    assert (E : forall a : MarketplaceItem,
               N.eqb (Item.likes a) n
               = Z.eqb (Z.of_N (Item.likes a)) (Z.of_N n)).
    { intros a.
      destruct (N.eqb_spec (Item.likes a) n),
               (Z.eqb_spec (Z.of_N (Item.likes a)) (Z.of_N n));
        reflexivity || lia. }
    rewrite !(filter_ext _ _ E). exact H.
  - intros t.
    exact (sortedItems_int_stable "recent" Item.createdAt t l
             comparator_recent).
Qed.

Lemma sortedItems_keeps_ties_witness :
  Spec.decimalPrices Samples.listings
  /\ filter (fun a => eqb (parseFloat (Item.price a)) (parseFloat "7"))
       (sortedItems "price-low" Samples.listings)
     = filter (fun a => eqb (parseFloat (Item.price a)) (parseFloat "7"))
         Samples.listings.
Proof.
  assert (H : Spec.decimalPrices Samples.listings) by (repeat constructor).
  split; [exact H |].
  exact (proj1 (sortedItems_keeps_ties Samples.listings) H (parseFloat "7")).
Defined.

(** X2: sorting again by the same key changes nothing, the prices being
    decimal strings when the key is a price key. *)
Theorem sortedItems_idempotent (k : string) (l : list MarketplaceItem) :
  (byPrice k -> Spec.decimalPrices l) ->
  sortedItems k (sortedItems k l) = sortedItems k l.
Proof.
  intros H. unfold sortedItems.
  apply (sort_idempotent (comparator k) (sortKey k) (comparator_sortKey k)).
  now apply sortKey_defined.
Qed.

Lemma sortedItems_idempotent_witness :
  sortedItems "price-high" (sortedItems "price-high" Samples.listings)
  = sortedItems "price-high" Samples.listings.
Proof.
  apply (sortedItems_idempotent "price-high" Samples.listings).
  intros _. repeat constructor.
Defined.

(** X3: filtering and sorting commute: sorting the filtered listings
    gives what filtering the sorted listings gives, the prices being
    decimal strings when the key is a price key. *)
Theorem sort_filter_commute (session : Session)
    (searchQuery : JsUnicode.ustring) (category sortBy : string)
    (items : list MarketplaceItem) :
  (byPrice sortBy -> Spec.decimalPrices items) ->
  sortedItems sortBy (filteredItems session searchQuery category items)
  = filteredItems session searchQuery category (sortedItems sortBy items).
Proof.
  intros H. unfold sortedItems, filteredItems.
  apply (sort_filter (comparator sortBy) (sortKey sortBy)
           (comparator_sortKey sortBy)).
  now apply sortKey_defined.
Qed.

Lemma sort_filter_commute_witness :
  sortedItems "price-low"
    (filteredItems Samples.session_open (JsUnicode.units "bob") "all"
       Samples.listings)
  = filteredItems Samples.session_open (JsUnicode.units "bob") "all"
      (sortedItems "price-low" Samples.listings).
Proof.
  apply (sort_filter_commute Samples.session_open (JsUnicode.units "bob")
           "all" "price-low" Samples.listings).
  intros _. repeat constructor.
Defined.

(** X4: choosing a category keeps, of the listings shown for "all", those
    of that category, in the same order. *)
Theorem category_refines_all (session : Session)
    (searchQuery : JsUnicode.ustring) (category : string)
    (items : list MarketplaceItem) :
  filteredItems session searchQuery category items
  = filter (matchesCategory category)
      (filteredItems session searchQuery "all" items).
Proof.
  unfold filteredItems. rewrite filter_filter. apply filter_ext.
  intros item. rewrite matchesCategory_all.
  destruct (matchesSearch searchQuery item),
           (matchesCategory category item),
           (canView session item); reflexivity.
Qed.

(** X5: a longer query only narrows the result: for queries made of
    characters up to U+00FF, the listings found for a query that contains
    [q] are those, among the listings found for [q], that match the
    longer query. *)
Theorem longer_query_narrows (session : Session)
    (pre q post : JsUnicode.ustring) (category : string)
    (items : list MarketplaceItem) :
  Spec.latin1 pre -> Spec.latin1 q -> Spec.latin1 post ->
  filteredItems session (pre ++ q ++ post)%list category items
  = filter (matchesSearch (pre ++ q ++ post)%list)
      (filteredItems session q category items).
Proof.
  intros Hpre Hq Hpost.
  unfold filteredItems. rewrite filter_filter. apply filter_ext.
  intros item.
  destruct (matchesSearch (pre ++ q ++ post)%list item) eqn:E.
  - rewrite (matchesSearch_part pre q post item Hpre Hq Hpost E).
    now destruct (matchesCategory category item), (canView session item).
  - cbn [andb]. now rewrite !andb_false_r.
Qed.

Lemma longer_query_narrows_witness :
  let pre := JsUnicode.units "Crystal " in
  let q := JsUnicode.units "Sw" in
  let post := JsUnicode.units "ord" in
  filteredItems Samples.session_open (pre ++ q ++ post)%list "all"
    Samples.listings
  = filter (matchesSearch (pre ++ q ++ post)%list)
      (filteredItems Samples.session_open q "all" Samples.listings).
Proof.
  intros pre q post.
  apply (longer_query_narrows Samples.session_open pre q post "all"
           Samples.listings);
    vm_compute; repeat constructor.
Defined.

(** X6: with an empty query and the category "all", every listing is
    either shown or counted as a hidden escrow listing: the two numbers
    add up to the number of listings. *)
Theorem shown_and_hidden_partition (session : Session)
    (items : list MarketplaceItem) :
  (List.length (filteredItems session [] "all" items)
   + hiddenEscrowCount session items)%nat
  = List.length items.
Proof.
  unfold filteredItems, hiddenEscrowCount.
  rewrite <- (filter_length_split (canView session) items).
  assert (Es : filter (fun item => matchesSearch [] item
                                   && matchesCategory "all" item
                                   && canView session item) items
               = filter (canView session) items).
  { apply filter_ext. intros item.
    now rewrite matchesSearch_empty, matchesCategory_all. }
  assert (Eh : filter (fun item =>
                         ListingType_eqb (Item.listingType item) escrow
                         && negb (canViewEscrowListing session
                                    (Item.escrowBuyerAddress item))) items
               = filter (fun x => negb (canView session x)) items).
  { apply filter_ext. intros item. unfold canView.
    now destruct (Item.listingType item). }
  now rewrite Es, Eh.
Qed.

End MarketplaceGridLaws.

(* ================================================================= *)
(** * Further properties of the listing creator *)

Module CreateListingModalLaws.
Import JsString JsNumber CreateListingModal Staging.
Import JsStringFacts JsNumberFacts CreateListingModalFacts.

(** ** White space *)

Lemma trim_skip (c : ascii) (s : string) :
  isWhiteSpace c = true -> trim (String c s) = trim s.
Proof. intros H. unfold trim. cbn [trimStart]. now rewrite H. Qed.

Lemma trim_blank_iff (s : string) :
  truthy (trim s) = false <-> forallb isWhiteSpace s = true.
Proof.
  induction s as [|c s IH]; [simpl; tauto |]. cbn [forallb].
  destruct (isWhiteSpace c) eqn:E.
  - now rewrite (trim_skip c s E).
  - rewrite (trim_truthy_of_nonblank c s E). cbn. split; discriminate.
Qed.

Lemma trimEnd_solid (s : string) :
  forallb (fun c => negb (isWhiteSpace c)) s = true -> trimEnd s = s.
Proof.
  induction s as [|c s IH]; [reflexivity |]. cbn [forallb trimEnd].
  rewrite andb_true_iff, negb_true_iff. intros [Hc Hs].
  rewrite (IH Hs). destruct s; [now rewrite Hc | reflexivity].
Qed.

Lemma trim_solid (s : string) :
  forallb (fun c => negb (isWhiteSpace c)) s = true -> trim s = s.
Proof.
  intros H. unfold trim.
  assert (E : trimStart s = s).
  { destruct s as [|c s]; [reflexivity |]. cbn [forallb] in H.
    apply andb_true_iff in H as [Hc _]. apply negb_true_iff in Hc.
    cbn [trimStart]. now rewrite Hc. }
  rewrite E. now apply trimEnd_solid.
Qed.

Lemma hex_solid (s : string) :
  forallb isHexDigit s = true ->
  forallb (fun c => negb (isWhiteSpace c)) s = true.
Proof.
  induction s as [|c s IH]; [reflexivity |]. cbn [forallb].
  rewrite !andb_true_iff. intros [Hc Hs]. split; [| now apply IH].
  now rewrite (isHexDigit_not_blank c Hc).
Qed.

(** ** Validation, through the rule list *)

Lemma record_message_inj (m m' : string) (w : World) :
  record (ToastError m) w = record (ToastError m') w -> m = m'.
Proof.
  unfold record. intros H. injection H as H.
  apply app_inv_head in H. now injection H.
Qed.

Lemma validateForm_rejects_iff (s : State) (w : World) (m : string) :
  validateForm s w = (Return false, record (ToastError m) w) <->
  Spec.firstFailure (Spec.rules s) = Some m.
Proof.
  rewrite validateForm_firstFailure.
  destruct (Spec.firstFailure (Spec.rules s)) as [m' |].
  - split.
    + intros H. apply (f_equal snd) in H. cbn [snd] in H.
      f_equal. now apply record_message_inj in H.
    + now intros [= ->].
  - split; discriminate.
Qed.

Lemma validateForm_accepts_iff (s : State) (w : World) :
  validateForm s w = (Return true, w) <->
  Spec.firstFailure (Spec.rules s) = None.
Proof.
  rewrite validateForm_firstFailure.
  destruct (Spec.firstFailure (Spec.rules s)); split; discriminate || reflexivity.
Qed.

(** ** The address check at its edges *)

Lemma validateSuiAddress_upper_prefix (r : string) :
  validateSuiAddress ("0X" ++ r) = false.
Proof.
  rewrite validateSuiAddress_bare by reflexivity.
  apply test_hex64_false_of_char. intros H.
  destruct H as (_ & Hx & _). apply isHexDigit_iff in Hx. discriminate Hx.
Qed.

Lemma validateSuiAddress_double_prefix (r : string) :
  validateSuiAddress ("0x0x" ++ r) = false.
Proof.
  change ("0x0x" ++ r)%string with ("0x" ++ ("0x" ++ r))%string.
  rewrite validateSuiAddress_prefixed.
  apply test_hex64_false_of_char. intros H.
  destruct H as (_ & Hx & _). apply isHexDigit_iff in Hx. discriminate Hx.
Qed.

(** X7: an address that [validateSuiAddress] accepts is taken as typed:
    it has no white space around it (the check does not trim) and is 64
    or 66 characters long; a prefix written "0X", or written twice, is
    rejected whatever follows. *)
Theorem accepted_address_exact (a : string) :
  (validateSuiAddress a = true ->
   trim a = a
   /\ (String.length a = 64 \/ String.length a = 66)%nat)
  /\ (forall r, validateSuiAddress ("0X" ++ r) = false)
  /\ (forall r, validateSuiAddress ("0x0x" ++ r) = false).
Proof.
  split; [| split;
            [exact validateSuiAddress_upper_prefix
            | exact validateSuiAddress_double_prefix]].
  intros H. apply validateSuiAddress_iff in H.
  destruct H as (r & [-> | ->] & Hl & Hh);
    apply forallb_isHexDigit_iff, hex_solid in Hh.
  - split; [now apply trim_solid | now left].
  - split.
    + apply trim_solid. cbn [append forallb]. now rewrite Hh.
    + right. cbn [append String.length]. now rewrite Hl.
Qed.

Lemma accepted_address_exact_witness :
  trim Samples.alice = Samples.alice
  /\ (String.length Samples.alice = 64 \/ String.length Samples.alice = 66)%nat.
Proof.
  apply (proj1 (accepted_address_exact Samples.alice)).
  vm_compute. reflexivity.
Defined.

(** ** Blank fields *)

(** X8: with an image staged, the form is rejected for its title exactly
    when the title is empty or made of white space only; and with a title
    that is not, it is rejected for its description exactly when the
    description is empty or made of white space only. *)
Theorem blank_title_or_description_rejected (s : State) (w : World) :
  isNull (selectedImage s) = false ->
  falsyOpt (imagePreview s) = false ->
  (validateForm s w
   = (Return false,
      record (ToastError "Please enter a title for your listing") w)
   <-> forallb isWhiteSpace (Form.title (formData s)) = true)
  /\ (forallb isWhiteSpace (Form.title (formData s)) = false ->
      (validateForm s w
       = (Return false,
          record (ToastError "Please enter a description for your listing")
            w)
       <-> forallb isWhiteSpace (Form.description (formData s)) = true)).
Proof.
  intros Hi Hp.
  assert (Ht : forall b, truthy (trim (Form.title (formData s))) = b ->
                         forallb isWhiteSpace (Form.title (formData s))
                         = negb b).
  { intros [] E.
    - destruct (forallb isWhiteSpace (Form.title (formData s))) eqn:F;
        [| reflexivity].
      apply trim_blank_iff in F. congruence.
    - now apply trim_blank_iff. }
  assert (Hd : forall b,
             truthy (trim (Form.description (formData s))) = b ->
             forallb isWhiteSpace (Form.description (formData s)) = negb b).
  { intros [] E.
    - destruct (forallb isWhiteSpace (Form.description (formData s))) eqn:F;
        [| reflexivity].
      apply trim_blank_iff in F. congruence.
    - now apply trim_blank_iff. }
  rewrite !validateForm_rejects_iff. unfold Spec.rules.
  rewrite Hi, Hp. cbn [negb andb app Spec.firstFailure].
  destruct (truthy (trim (Form.title (formData s)))) eqn:Et;
    rewrite (Ht _ eq_refl); cbn [negb].
  - split.
    + split; [| discriminate].
      destruct (truthy (trim (Form.description (formData s))));
        [| discriminate].
      destruct (truthy (Form.price (formData s))
                && negb (leb (parseFloat (Form.price (formData s))) zero));
        [| discriminate].
      destruct (Form.listingType (formData s)); cbn; [discriminate |].
      destruct (truthy (trim (Form.escrowBuyerAddress (formData s))));
        [| discriminate].
      destruct (validateSuiAddress (Form.escrowBuyerAddress (formData s)));
        discriminate.
    + intros _.
      destruct (truthy (trim (Form.description (formData s)))) eqn:Ed;
        rewrite (Hd _ eq_refl); cbn [negb].
      * split; [| discriminate].
        destruct (truthy (Form.price (formData s))
                  && negb (leb (parseFloat (Form.price (formData s))) zero));
          [| discriminate].
        destruct (Form.listingType (formData s)); cbn; [discriminate |].
        destruct (truthy (trim (Form.escrowBuyerAddress (formData s))));
          [| discriminate].
        destruct (validateSuiAddress (Form.escrowBuyerAddress (formData s)));
          discriminate.
      * split; reflexivity.
  - split; [split; reflexivity | discriminate].
Qed.

Lemma blank_title_or_description_rejected_witness :
  let w := Samples.filled (Samples.form "2.5" standard "") in
  let w' := snd (editTitle "   " w) in
  validateForm (state w') w'
  = (Return false,
     record (ToastError "Please enter a title for your listing") w').
Proof.
  intros w w'.
  apply (proj1 (blank_title_or_description_rejected (state w') w'
                  eq_refl eq_refl)).
  reflexivity.
Defined.

(** ** What validation reads *)

(** X9: validation reads the presence of the selected file, the preview,
    the title, the description, the price, the listing type and, for an
    escrow listing, the buyer address, and nothing else: two forms that
    agree on these get the same answer, whatever their category, their
    escrow duration and, for a standard listing, their buyer address. *)
Theorem validation_reads_only (s s' : State) (w : World) :
  isNull (selectedImage s) = isNull (selectedImage s') ->
  imagePreview s = imagePreview s' ->
  Form.title (formData s) = Form.title (formData s') ->
  Form.description (formData s) = Form.description (formData s') ->
  Form.price (formData s) = Form.price (formData s') ->
  Form.listingType (formData s) = Form.listingType (formData s') ->
  (Form.listingType (formData s) = escrow ->
   Form.escrowBuyerAddress (formData s)
   = Form.escrowBuyerAddress (formData s')) ->
  validateForm s w = validateForm s' w.
Proof.
  intros Hi Hp Ht Hd Hc Hl Ha.
  rewrite !validateForm_firstFailure.
  assert (E : Spec.rules s = Spec.rules s').
  { unfold Spec.rules. rewrite <- Hi, <- Hp, <- Ht, <- Hd, <- Hc, <- Hl.
    destruct (Form.listingType (formData s)); [reflexivity |].
    now rewrite <- (Ha eq_refl). }
  now rewrite E.
Qed.

Lemma validation_reads_only_witness :
  let w := Samples.filled (Samples.form "2.5" standard "") in
  let w' := snd (editCategory "music" w) in
  validateForm (state w) w = validateForm (state w') w.
Proof.
  intros w w'.
  apply (validation_reads_only (state w) (state w') w); reflexivity.
Defined.

(** ** The listing type buttons *)

(** X10: choosing "standard" empties the buyer address, and choosing
    "escrow" does not bring it back: a form that is acceptable as a
    standard listing is, once switched to escrow, rejected for its missing
    buyer address. *)
Theorem standard_and_back_asks_for_buyer (w : World) :
  validateForm (state (snd (selectStandard w))) (snd (selectStandard w))
  = (Return true, snd (selectStandard w)) ->
  let w' := snd (selectEscrow (snd (selectStandard w))) in
  Form.escrowBuyerAddress (formData (state w')) = ""
  /\ Form.listingType (formData (state w')) = escrow
  /\ validateForm (state w') w'
     = (Return false,
        record
          (ToastError
             "Please enter the buyer's Sui wallet address for escrow listing")
          w').
Proof.
  intros H w'. subst w'. split; [reflexivity | split; [reflexivity |]].
  apply validateForm_accepts_iff in H.
  apply validateForm_rejects_iff.
  unfold Spec.rules in *. cbn in H |- *.
  repeat match type of H with
         | (if ?b then _ else _) = None => destruct b; [| discriminate H]
         end.
  reflexivity.
Qed.

Lemma standard_and_back_asks_for_buyer_witness :
  let w := Samples.filled (Samples.form "2.5" escrow Samples.alice) in
  Form.escrowBuyerAddress
    (formData (state (snd (selectEscrow (snd (selectStandard w)))))) = "".
Proof.
  intros w.
  apply (standard_and_back_asks_for_buyer w).
  vm_compute. reflexivity.
Defined.

(** ** Submitting and closing *)

(** X11: submitting a form that fails validation does nothing but show
    the rejection of the first failing rule: the state is unchanged, no
    submission starts, and the store is not called, also when a delay
    settles afterwards. *)
Theorem rejected_submission_changes_nothing (w : World) (env : Env) :
  isSubmitting (state w) = false ->
  pending w = None ->
  fst (validateForm (state w) w) = Return false ->
  exists m,
    Spec.firstFailure (Spec.rules (state w)) = Some m
    /\ run [Submit; DelaySettles env] w = record (ToastError m) w.
Proof.
  intros Hs Hp Hv. rewrite validateForm_firstFailure in Hv.
  destruct (Spec.firstFailure (Spec.rules (state w))) as [m |] eqn:E;
    [| discriminate Hv].
  exists m. split; [reflexivity |].
  unfold run, fold_left, step at 2. rewrite Hs.
  unfold handleSubmit_begin, bind.
  rewrite validateForm_firstFailure, E. cbn [negb ret snd].
  unfold step, handleSubmit_resume. cbn [record pending]. now rewrite Hp.
Qed.

Lemma rejected_submission_changes_nothing_witness :
  let w := Samples.filled (Samples.form "0" standard "") in
  exists m,
    Spec.firstFailure (Spec.rules (state w)) = Some m
    /\ run [Submit; DelaySettles Samples.quiet] w = record (ToastError m) w.
Proof.
  intros w.
  apply (rejected_submission_changes_nothing w Samples.quiet);
    vm_compute; reflexivity.
Defined.

Lemma run_success (w : World) (env : Env) :
  isSubmitting (state w) = false ->
  fst (validateForm (state w) w) = Return true ->
  delayRejects env = false -> addItemThrows env = false ->
  run [Submit; DelaySettles env] w
  = {| state := {| isSubmitting := false;
                   formData := initialFormData;
                   selectedImage := None;
                   imagePreview := None;
                   isDragging := isDragging (state w) |};
       calls := (calls w
                 ++ [AddItem (newItem (formData (state w))
                                (imagePreview (state w)));
                     ToastSuccess
                       (successMessage
                          (Form.listingType (formData (state w))));
                     OnClose])%list;
       pending := None;
       resetTimers := resetTimers w |}.
Proof.
  intros Hs Hv Hd Ha. unfold run, fold_left.
  rewrite (step_Submit_valid w Hs Hv).
  unfold step, handleSubmit_resume.
  cbn [pending p_formData p_imagePreview].
  unfold bind, tryCatchFinally, awaited, addItem, bind.
  rewrite Hd, Ha. cbn. now rewrite <- !app_assoc.
Qed.

(** X12: a submission that succeeds leaves the form as it was first
    shown: the fields have their initial values, no image is staged, the
    submitting flag is down and nothing waits; submitting again at once is
    rejected for the missing image. *)
Theorem successful_submission_resets (w : World) (env : Env) :
  isSubmitting (state w) = false ->
  fst (validateForm (state w) w) = Return true ->
  delayRejects env = false -> addItemThrows env = false ->
  let w' := run [Submit; DelaySettles env] w in
  state w'
  = {| isSubmitting := false;
       formData := initialFormData;
       selectedImage := None;
       imagePreview := None;
       isDragging := isDragging (state w) |}
  /\ pending w' = None
  /\ step Submit w'
     = record (ToastError "Please upload an image for your listing") w'.
Proof.
  intros Hs Hv Hd Ha w'. subst w'.
  rewrite (run_success w env Hs Hv Hd Ha). repeat split.
Qed.

Lemma successful_submission_resets_witness :
  let w := Samples.filled (Samples.form "2.5" escrow Samples.alice) in
  pending (run [Submit; DelaySettles Samples.quiet] w) = None.
Proof.
  intros w.
  refine (proj1 (proj2 (successful_submission_resets w Samples.quiet
                          _ _ _ _))); vm_compute; reflexivity.
Defined.

(** X13: closing while no submission is in flight calls [onClose] once
    and leaves the form as it is until the scheduled reset fires; the
    reset then puts the whole state back to its initial value. *)
Theorem close_then_reset (w : World) :
  isSubmitting (state w) = false ->
  state (step Close w) = state w
  /\ calls (step Close w) = (calls w ++ [OnClose])%list
  /\ resetTimers (step Close w) = S (resetTimers w)
  /\ state (run [Close; ResetTimer] w) = initialState
  /\ calls (run [Close; ResetTimer] w) = (calls w ++ [OnClose])%list.
Proof.
  intros Hs. unfold run, fold_left, step, handleClose. rewrite Hs.
  cbn. repeat split. now rewrite Hs.
Qed.

Lemma close_then_reset_witness :
  let w := Samples.filled (Samples.form "2.5" escrow Samples.alice) in
  state (run [Close; ResetTimer] w) = initialState.
Proof.
  intros w.
  exact (proj1 (proj2 (proj2 (proj2 (close_then_reset w eq_refl))))).
Defined.

(** X14: the record handed to the store is the one that was validated:
    a reset of the form that fires while the submission waits for its
    delay changes none of the calls made to the collaborators. *)
Theorem reset_in_flight_keeps_record (w : World) (env : Env) :
  isSubmitting (state w) = false ->
  fst (validateForm (state w) w) = Return true ->
  calls (run [Submit; ResetTimer; DelaySettles env] w)
  = calls (run [Submit; DelaySettles env] w).
Proof.
  intros Hs Hv. unfold run, fold_left.
  rewrite (step_Submit_valid w Hs Hv).
  unfold step, resetTimerFires. cbn [resetTimers].
  destruct (resetTimers w) as [|n]; [reflexivity |].
  unfold handleSubmit_resume. cbn.
  unfold bind, tryCatchFinally, awaited, addItem, bind.
  destruct (delayRejects env), (addItemThrows env); reflexivity.
Qed.

Lemma reset_in_flight_keeps_record_witness :
  let w := step Close
             (Samples.filled (Samples.form "2.5" escrow Samples.alice)) in
  resetTimers w = 1%nat
  /\ calls (run [Submit; ResetTimer; DelaySettles Samples.quiet] w)
     = calls (run [Submit; DelaySettles Samples.quiet] w).
Proof.
  intros w. split; [reflexivity |].
  apply (reset_in_flight_keeps_record w Samples.quiet);
    vm_compute; reflexivity.
Defined.

(** ** Staging an image *)

Lemma acceptable_dec (file : File) :
  acceptable file
  \/ startsWith (file_type file) "image/" = false
  \/ (startsWith (file_type file) "image/" = true
      /\ (maxFileSize <? file_size file) = true).
Proof.
  unfold acceptable.
  destruct (startsWith (file_type file) "image/"); [| auto].
  destruct (Z.ltb_spec maxFileSize (file_size file)) as [H | H]; [auto |].
  left. split; [reflexivity |]. exact H.
Qed.

Lemma handleImageSelect_accepted (file : File) (d : Desk) :
  acceptable file ->
  handleImageSelect file d
  = lift (toast_success "Image uploaded successfully!")
      (readAsDataURL (lift (setSelectedImage (Some file)) d)).
Proof.
  intros [Ht Hs]. unfold handleImageSelect. rewrite Ht.
  destruct (Z.ltb_spec maxFileSize (file_size file)) as [H | H];
    [| reflexivity].
  exfalso. change maxFileSize with 10485760 in H. lia.
Qed.

(** X15: [handleImageSelect] takes a file exactly when its type starts
    with "image/" and it has at most 10485760 bytes (the bound itself is
    taken): the file becomes the selected image, a read starts and the
    success is announced, the preview and the fields staying as they are.
    Any other file changes nothing and starts no read; one error is
    shown. *)
Theorem handleImageSelect_takes_iff (file : File) (d : Desk) :
  let d' := handleImageSelect file d in
  (acceptable file ->
   selectedImage (state (world d')) = Some file
   /\ imagePreview (state (world d')) = imagePreview (state (world d))
   /\ formData (state (world d')) = formData (state (world d))
   /\ reads d' = S (reads d)
   /\ calls (world d')
      = (calls (world d)
         ++ [ToastSuccess "Image uploaded successfully!"])%list)
  /\ (~ acceptable file ->
      state (world d') = state (world d)
      /\ reads d' = reads d
      /\ exists m,
           calls (world d') = (calls (world d) ++ [ToastError m])%list).
Proof.
  intros d'. subst d'. split.
  - intros H. rewrite (handleImageSelect_accepted file d H).
    repeat split.
  - intros H. destruct (acceptable_dec file) as [A | [Ht | [Ht Hs]]];
      [contradiction | |]; unfold handleImageSelect; rewrite Ht.
    + repeat split. eexists. reflexivity.
    + rewrite Hs. repeat split. eexists. reflexivity.
Qed.

Lemma handleImageSelect_takes_iff_witness :
  let d := {| world := initialWorld; reads := 0 |} in
  let file := {| file_type := "image/png"; file_size := 10485760 |} in
  selectedImage (state (world (handleImageSelect file d))) = Some file.
Proof.
  intros d file.
  refine (proj1 (proj1 (handleImageSelect_takes_iff file d) _)).
  split; [reflexivity |]. vm_compute. discriminate.
Defined.

(** X16: the life of a staged image, seen by validation.  After an
    acceptable file is chosen on a form without preview, the form is
    still rejected for its image although the upload was announced; it
    stays so when the read ends without a result; it is no longer
    rejected for its image once the read ends with a non-empty result;
    and it is again after [removeImage]. *)
Theorem staging_cycle (file : File) (r : string) (d : Desk) (w : World) :
  acceptable file -> r <> "" ->
  imagePreview (state (world d)) = None ->
  let d1 := handleImageSelect file d in
  let d2 := readerLoadEnd (Some r) d1 in
  validateForm (state (world d1)) w = imageRejection w
  /\ validateForm (state (world (readerLoadEnd None d1))) w
     = imageRejection w
  /\ validateForm (state (world d2)) w <> imageRejection w
  /\ validateForm (state (world (lift removeImage d2))) w
     = imageRejection w.
Proof.
  intros Ha Hr Hp d1 d2. subst d2 d1.
  rewrite (handleImageSelect_accepted file d Ha).
  unfold imageRejection. split; [| split; [| split]].
  - apply validateForm_rejects_iff. unfold Spec.rules. cbn.
    now rewrite Hp.
  - apply validateForm_rejects_iff. reflexivity.
  - intros H. apply validateForm_rejects_iff in H.
    unfold Spec.rules in H. cbn in H.
    destruct r as [|c r]; [contradiction |]. cbn in H.
    destruct (truthy (trim (Form.title (formData (state (world d))))));
      [| discriminate H].
    destruct (truthy (trim (Form.description (formData (state (world d))))));
      [| discriminate H].
    destruct (truthy (Form.price (formData (state (world d))))
              && negb (leb (parseFloat
                              (Form.price (formData (state (world d)))))
                         zero));
      [| discriminate H].
    destruct (Form.listingType (formData (state (world d))));
      [discriminate H |].
    unfold Spec.firstFailure in H.
    destruct (truthy (trim (Form.escrowBuyerAddress
                              (formData (state (world d))))));
      [| discriminate H].
    destruct (validateSuiAddress
                (Form.escrowBuyerAddress (formData (state (world d)))));
      discriminate H.
  - apply validateForm_rejects_iff. reflexivity.
Qed.

Lemma staging_cycle_witness :
  let d := {| world := initialWorld; reads := 0 |} in
  validateForm (state (world (handleImageSelect Samples.image d)))
    initialWorld
  = imageRejection initialWorld.
Proof.
  intros d.
  refine (proj1 (staging_cycle Samples.image "data:image/png;base64,AA" d
                   initialWorld _ _ _)).
  - split; [reflexivity |]. vm_compute. discriminate.
  - discriminate.
  - reflexivity.
Defined.

(** ** What holds whatever the user does *)

Lemma rules_pass_validated (s : State) :
  Spec.firstFailure (Spec.rules s) = None ->
  Validated (newItem (formData s) (imagePreview s)).
Proof.
  unfold Spec.rules, Validated. cbn [app Spec.firstFailure newItem New.image
    New.title New.description New.price New.listingType
    New.escrowBuyerAddress].
  intros H.
  destruct (isNull (selectedImage s)); [discriminate H |].
  destruct (imagePreview s) as [p |]; [| discriminate H].
  destruct p as [|c p]; [discriminate H |].
  cbn [falsyOpt truthy negb andb] in H.
  destruct (truthy (trim (Form.title (formData s)))); [| discriminate H].
  destruct (truthy (trim (Form.description (formData s))));
    [| discriminate H].
  destruct (Form.price (formData s)) as [|pc pr] eqn:Ep; [discriminate H |].
  cbn [truthy andb] in H.
  destruct (leb (parseFloat (String pc pr)) zero); [discriminate H |].
  cbn [negb] in H.
  split; [eexists; split; [reflexivity | discriminate] |].
  do 4 (split; [reflexivity || discriminate |]).
  destruct (Form.listingType (formData s)); [reflexivity |].
  unfold Spec.firstFailure in H.
  destruct (truthy (trim (Form.escrowBuyerAddress (formData s))));
    [| discriminate H].
  destruct (validateSuiAddress (Form.escrowBuyerAddress (formData s)))
    eqn:Ev; [| discriminate H].
  eexists. split; [reflexivity |]. now apply validateSuiAddress_iff.
Qed.

(** A step that starts and ends no submission and does not call the
    store keeps the desk sound. *)
Lemma sound_frame (d d' : Desk) :
  Sound d ->
  pending (world d') = pending (world d) ->
  isSubmitting (state (world d')) = isSubmitting (state (world d)) ->
  (forall r, In (AddItem r) (calls (world d')) ->
             In (AddItem r) (calls (world d))) ->
  Sound d'.
Proof.
  intros (H1 & H2 & H3) Hp Hs Hc. unfold Sound.
  rewrite Hp, Hs. split; [| split; [exact H2 | exact H3]].
  intros r Hr. apply H1. now apply Hc.
Qed.

Ltac frame_calls :=
  let r := fresh "r" in
  let H := fresh "H" in
  intros r H; cbn in H;
  try (apply in_app_or in H; destruct H as [H | [H | []]];
       [exact H | discriminate H]);
  exact H.

Ltac framed d :=
  apply (sound_frame d); [assumption | reflexivity | reflexivity | frame_calls].

Lemma handleImageSelect_sound (file : File) (d : Desk) :
  Sound d -> Sound (handleImageSelect file d).
Proof.
  intros H. unfold handleImageSelect.
  destruct (startsWith (file_type file) "image/"); [| framed d].
  destruct (maxFileSize <? file_size file); framed d.
Qed.

Lemma step_sound (e : Event) (d : Desk) :
  Sound d -> Sound {| world := step e (world d); reads := reads d |}.
Proof.
  intros H. destruct e as [| env | |]; unfold step.
  - (* Submit *)
    destruct (isSubmitting (state (world d))) eqn:Es; [framed d |].
    unfold handleSubmit_begin, bind. rewrite validateForm_firstFailure.
    destruct (Spec.firstFailure (Spec.rules (state (world d)))) eqn:Ef;
      [framed d |].
    destruct H as (H1 & H2 & H3). unfold Sound. cbn.
    split; [exact H1 | split].
    + intros p [= <-]. now apply rules_pass_validated.
    + split; [discriminate | reflexivity].
  - (* the delay settles *)
    unfold handleSubmit_resume.
    destruct (pending (world d)) as [p |] eqn:Ep; [| framed d].
    destruct H as (H1 & H2 & H3). specialize (H2 p Ep).
    unfold bind, tryCatchFinally, awaited, addItem, bind.
    destruct (delayRejects env), (addItemThrows env); unfold Sound; cbn;
      (split; [| split; [discriminate |
                         split; [discriminate | intros C; now elim C]]]);
      intros r Hr;
      repeat (apply in_app_or in Hr; destruct Hr as [Hr | Hr]);
      try (now apply H1);
      destruct Hr as [Hr | []]; try discriminate Hr;
      injection Hr as <-; exact H2.
  - (* Close *)
    unfold handleClose.
    destruct (isSubmitting (state (world d))); framed d.
  - (* a reset fires *)
    unfold resetTimerFires. destruct (resetTimers (world d)); framed d.
Qed.

Lemma act_sound (a : Action) (d : Desk) : Sound d -> Sound (act a d).
Proof.
  intros H. unfold act.
  destruct (enabled a (state (world d))); [| exact H].
  destruct a; try (framed d).
  - now apply step_sound.
  - unfold handleFileInputChange. destruct (firstFile files); [| exact H].
    now apply handleImageSelect_sound.
  - unfold handleDrop. destruct (firstFile files).
    + apply handleImageSelect_sound. framed d.
    + framed d.
  - unfold readerLoadEnd. destruct (reads d); [exact H | framed d].
Qed.

Lemma perform_sound (actions : list Action) (d : Desk) :
  Sound d -> Sound (perform actions d).
Proof.
  revert d. induction actions as [|a l IH]; intros d H; [exact H |].
  cbn [perform fold_left]. apply IH. now apply act_sound.
Qed.

Lemma initialDesk_sound : Sound initialDesk.
Proof.
  unfold Sound. cbn. split; [intros r [] | split; [discriminate |]].
  split; [discriminate | intros C; now elim C].
Qed.

(** X17: whatever the user does with the modal, and however the delays,
    the reads and the store behave, every record the store is handed has
    gone through validation: it has a non-empty image, a title and a
    description that are not blank, a non-empty price that does not parse
    to a number at or below zero, and a buyer address of the required
    shape exactly when it is an escrow listing, none otherwise. *)
Theorem store_receives_validated_records (actions : list Action)
    (r : NewItem) :
  In (AddItem r) (calls (world (perform actions initialDesk))) ->
  Validated r.
Proof.
  apply (perform_sound actions initialDesk initialDesk_sound).
Qed.

Lemma store_receives_validated_records_witness :
  let w := Samples.filled (Samples.form "2.5" escrow Samples.alice) in
  let actions :=
    [FileInputChange [Samples.image];
     LoadEnd (Some "data:image/png;base64,AA");
     EditTitle "Crystal Sword"; EditDescription "A sword"; EditPrice "2.5";
     EditCategory "gaming"; ChooseEscrow; EditEscrowBuyerAddress Samples.alice;
     Modal Submit; Modal (DelaySettles Samples.quiet)] in
  Validated (newItem (formData (state w)) (imagePreview (state w))).
Proof.
  intros w actions.
  apply (store_receives_validated_records actions).
  vm_compute. right. left. reflexivity.
Defined.

(** X18: whatever the user does, the submitting flag is up exactly while
    a submission waits for its delay, so that a submission never starts
    over one that is in flight. *)
Theorem submitting_flag_tracks_submission (actions : list Action) :
  let w := world (perform actions initialDesk) in
  isSubmitting (state w) = true <-> pending w <> None.
Proof.
  apply (perform_sound actions initialDesk initialDesk_sound).
Qed.

(** ** Whole-number prices *)

Lemma isDigit_not_blank (c : ascii) :
  isDigit c = true -> isWhiteSpace c = false.
Proof.
  destruct c as [[] [] [] [] [] [] [] []]; intros H;
    first [reflexivity | vm_compute in H; discriminate H].
Qed.

Lemma optSign_digit (c : ascii) (r : string) :
  isDigit c = true -> optSign (String c r) = (false, String c r).
Proof.
  destruct c as [[] [] [] [] [] [] [] []]; intros H;
    first [reflexivity | vm_compute in H; discriminate H].
Qed.

Lemma not_Infinity_digit (c : ascii) (r : string) :
  isDigit c = true -> startsWith (String c r) "Infinity" = false.
Proof.
  destruct c as [[] [] [] [] [] [] [] []]; intros H;
    first [reflexivity | vm_compute in H; discriminate H].
Qed.

Lemma span_all (p : ascii -> bool) (s : string) :
  forallb p s = true -> span p s = (s, "").
Proof.
  induction s as [|c s IH]; [reflexivity |]. cbn [forallb span].
  rewrite andb_true_iff. intros [Hc Hs]. now rewrite Hc, (IH Hs).
Qed.

Lemma string_app_empty (s : string) : (s ++ "")%string = s.
Proof. induction s as [|c s IH]; simpl; [reflexivity | now rewrite IH]. Qed.

(** [parseFloat] of a string of decimal digits is the number nearest to
    the integer they write. *)
Lemma parseFloat_digits (c : ascii) (r : string) :
  forallb isDigit (String c r) = true ->
  parseFloat (String c r) = of_decimal (digitsValue 0 (String c r)) 0.
Proof.
  intros H. pose proof H as H'. cbn [forallb] in H'.
  apply andb_true_iff in H' as [Hc _].
  unfold parseFloat. cbn [trimStart].
  rewrite (isDigit_not_blank c Hc), (optSign_digit c r Hc),
    (not_Infinity_digit c r Hc), (span_all isDigit _ H).
  rewrite string_app_empty. reflexivity.
Qed.

Lemma of_decimal_positive (m : Z) : 0 < m -> leb (of_decimal m 0) zero = false.
Proof.
  intros Hm. unfold of_decimal. change (0 <=? 0) with true. cbv iota.
  assert (Ho : 0 < one_units)
    by (unfold one_units; apply Z.pow_pos_nonneg; lia).
  rewrite Z.pow_0_r, Z.mul_1_r.
  destruct (round_ratio_pos (m * one_units)) as [-> | (k & -> & Hk)];
    [nia | reflexivity |].
  cbn [leb zero]. apply Z.leb_gt. exact Hk.
Qed.

(** X19: a standard listing with a staged image, a title and a
    description that are not blank, and a price written with decimal
    digits only and not all of them zero, passes validation: no rejection
    is shown. *)
Theorem whole_number_price_accepted (s : State) (w : World) :
  isNull (selectedImage s) = false ->
  falsyOpt (imagePreview s) = false ->
  truthy (trim (Form.title (formData s))) = true ->
  truthy (trim (Form.description (formData s))) = true ->
  Form.listingType (formData s) = standard ->
  Form.price (formData s) <> "" ->
  forallb isDigit (Form.price (formData s)) = true ->
  0 < digitsValue 0 (Form.price (formData s)) ->
  validateForm s w = (Return true, w).
Proof.
  intros Hi Hp Ht Hd Hl Hn Hg Hv.
  apply validateForm_accepts_iff. unfold Spec.rules.
  rewrite Hi, Hp, Ht, Hd, Hl.
  destruct (Form.price (formData s)) as [|c r]; [contradiction |].
  rewrite (parseFloat_digits c r Hg), (of_decimal_positive _ Hv).
  reflexivity.
Qed.

Lemma whole_number_price_accepted_witness :
  let w := Samples.filled (Samples.form "12" standard "") in
  validateForm (state w) w = (Return true, w).
Proof.
  intros w.
  apply (whole_number_price_accepted (state w) w);
    try reflexivity; try discriminate.
Defined.

End CreateListingModalLaws.

(* ================================================================= *)
(** * The price rule on the values of the price field *)

Module PriceFieldFacts.
Import JsString JsNumber CreateListingModal PriceField.
Import JsNumberFacts CreateListingModalFacts CreateListingModalLaws.

Lemma round_ratio_defined (N D : Z) : isNaN (round_ratio N D) = false.
Proof. unfold round_ratio. now destruct (overflow_units <=? _). Qed.

Lemma of_decimal_defined (m e : Z) : isNaN (of_decimal m e) = false.
Proof.
  unfold of_decimal. destruct (0 <=? e); apply round_ratio_defined.
Qed.

(** [parseFloat] gives a number as soon as it finds a digit before or
    after the point. *)
Lemma parseFloat_defined (s s1 ip s2 fp s3 : string) (minus : bool) :
  optSign (trimStart s) = (minus, s1) ->
  span isDigit s1 = (ip, s2) ->
  match s2 with
  | String "."%char r => span isDigit r
  | _ => (EmptyString, s2)
  end = (fp, s3) ->
  (ip ++ fp)%string <> "" ->
  isNaN (parseFloat s) = false.
Proof.
  intros E1 E2 E3 Hn. unfold parseFloat. rewrite E1.
  destruct (startsWith s1 "Infinity"); [now destruct minus |].
  rewrite E2, E3.
  destruct (ip ++ fp)%string as [|c r]; [contradiction |].
  destruct minus; [rewrite SortLaws.isNaN_neg |]; apply of_decimal_defined.
Qed.

Lemma append_nonempty_l (a b : string) : a <> "" -> (a ++ b)%string <> "".
Proof. destruct a; [contradiction | discriminate]. Qed.

Lemma append_nonempty_r (a b : string) : b <> "" -> (a ++ b)%string <> "".
Proof. destruct a, b; try contradiction; discriminate. Qed.

Lemma truthy_nonempty (s : string) : truthy s = true -> s <> "".
Proof. destruct s; [discriminate | discriminate]. Qed.

(** The digits of a floating-point number string, once its sign is
    off. *)
Lemma float_body_digits (s1 : string) :
  (let '(ip, s2) := span isDigit s1 in
   match s2 with
   | String "."%char r =>
       let '(fp, s3) := span isDigit r in truthy fp && exponentOk s3
   | _ => truthy ip && exponentOk s2
   end) = true ->
  exists ip s2 fp s3,
    span isDigit s1 = (ip, s2)
    /\ match s2 with
       | String "."%char r => span isDigit r
       | _ => (EmptyString, s2)
       end = (fp, s3)
    /\ (ip ++ fp)%string <> "".
Proof.
  destruct (span isDigit s1) as [ip s2]. intros H.
  exists ip, s2.
  destruct s2 as [|c2 r2].
  - exists "", "". apply andb_true_iff in H as [H _].
    split; [reflexivity | split; [reflexivity |]].
    apply append_nonempty_l. now apply truthy_nonempty.
  - destruct c2 as [[] [] [] [] [] [] [] []];
      try (apply andb_true_iff in H as [H _];
           eexists; eexists;
           split; [reflexivity | split; [reflexivity |]];
           apply append_nonempty_l; now apply truthy_nonempty).
    destruct (span isDigit r2) as [fp s3]. exists fp, s3.
    apply andb_true_iff in H as [H _].
    split; [reflexivity | split; [reflexivity |]].
    apply append_nonempty_r. now apply truthy_nonempty.
Qed.

Lemma isFloatString_first (c : ascii) (r : string) :
  isFloatString (String c r) = true ->
  c = "-"%char \/ isDigit c = true \/ c = "."%char.
Proof.
  intros H.
  destruct c as [[] [] [] [] [] [] [] []];
    try (left; reflexivity); try (right; left; reflexivity);
    try (right; right; reflexivity);
    exfalso; cbn in H; discriminate H.
Qed.

(** A valid floating-point number string parses to a number. *)
Lemma isFloatString_defined (p : string) :
  isFloatString p = true -> isNaN (parseFloat p) = false.
Proof.
  intros H. destruct p as [|c r]; [discriminate H |].
  destruct (isFloatString_first c r H) as [-> | [Hd | ->]].
  - destruct (float_body_digits r H) as (ip & s2 & fp & s3 & E2 & E3 & Hn).
    now apply (parseFloat_defined _ r ip s2 fp s3 true).
  - assert (H' := H). unfold isFloatString in H'.
    replace (match String c r with
             | String "-"%char r0 => r0
             | _ => String c r
             end) with (String c r) in H'
      by (destruct c as [[] [] [] [] [] [] [] []];
          first [reflexivity | vm_compute in Hd; discriminate Hd]).
    destruct (float_body_digits _ H')
      as (ip & s2 & fp & s3 & E2 & E3 & Hn).
    apply (parseFloat_defined _ (String c r) ip s2 fp s3 false);
      try assumption.
    cbn [trimStart]. rewrite (isDigit_not_blank c Hd).
    now apply optSign_digit.
  - destruct (float_body_digits (String "." r) H)
      as (ip & s2 & fp & s3 & E2 & E3 & Hn).
    now apply (parseFloat_defined _ (String "." r) ip s2 fp s3 false).
Qed.

Lemma leb_zero_iff (x : number) :
  isNaN x = false -> leb x zero = true <-> ltb zero x <> true.
Proof.
  destruct x as [| |k|]; cbn; try discriminate; intros _.
  - split; [discriminate | reflexivity].
  - rewrite Z.leb_le. destruct (Z.ltb_spec 0 k); split; try lia;
      try discriminate; intros C; now elim C.
  - split; [discriminate | intros C; now elim C].
Qed.

(** On the values of the price field, the test of the price rule holds
    exactly when the price is not a number above zero. *)
Lemma price_check_iff (p : string) :
  numberInputValue p ->
  negb (truthy p) || leb (parseFloat p) zero = true <-> ~ aboveZero p.
Proof.
  unfold aboveZero. intros [-> | H].
  - cbn. split; [intros _ [C _]; now apply C | reflexivity].
  - pose proof (isFloatString_defined p H) as Hn.
    destruct p as [|c r]; [discriminate H |]. cbn [truthy negb orb].
    rewrite (leb_zero_iff _ Hn). split.
    + intros C [_ A]. now apply C.
    + intros C A. apply C. split; [discriminate | exact A].
Qed.

(** C3: on every value the price field can hold, form validation rejects
    the submission unless the price is there and parses to a number
    above zero; when the rules before it pass, the rejection is the
    price error, and it is given exactly in that case.  So "0" and "-1"
    are rejected and "0.01" is not. *)
Theorem price_rule_on_field_values (s : State) (w : World) :
  numberInputValue (Form.price (formData s)) ->
  (~ aboveZero (Form.price (formData s)) ->
   fst (validateForm s w) = Return false)
  /\ (isNull (selectedImage s) = false ->
      falsyOpt (imagePreview s) = false ->
      truthy (trim (Form.title (formData s))) = true ->
      truthy (trim (Form.description (formData s))) = true ->
      (validateForm s w = priceRejection w
       <-> ~ aboveZero (Form.price (formData s))))
  /\ (Form.price (formData s) = "0" \/ Form.price (formData s) = "-1" ->
      fst (validateForm s w) = Return false)
  /\ (Form.price (formData s) = "0.01" ->
      validateForm s w <> priceRejection w).
Proof.
  intros Hv.
  assert (H1 : ~ aboveZero (Form.price (formData s)) ->
               fst (validateForm s w) = Return false).
  { intros Hz. apply (price_check_iff _ Hv) in Hz.
    unfold validateForm.
    destruct (isNull (selectedImage s) || falsyOpt (imagePreview s));
      [reflexivity |].
    destruct (negb (truthy (trim (Form.title (formData s)))));
      [reflexivity |].
    destruct (negb (truthy (trim (Form.description (formData s)))));
      [reflexivity |].
    now rewrite Hz. }
  assert (H2 : isNull (selectedImage s) = false ->
               falsyOpt (imagePreview s) = false ->
               truthy (trim (Form.title (formData s))) = true ->
               truthy (trim (Form.description (formData s))) = true ->
               (validateForm s w = priceRejection w
                <-> ~ aboveZero (Form.price (formData s)))).
  { intros Hi Hp Ht Hd. rewrite <- (price_check_iff _ Hv).
    unfold priceRejection. rewrite validateForm_rejects_iff.
    unfold Spec.rules. rewrite Hi, Hp, Ht, Hd.
    cbn [negb andb app Spec.firstFailure].
    destruct (truthy (Form.price (formData s))); cbn [negb andb orb];
      [| split; reflexivity].
    destruct (leb (parseFloat (Form.price (formData s))) zero);
      cbn [negb]; [split; reflexivity |].
    split; [| discriminate].
    destruct (Form.listingType (formData s)); [discriminate |].
    unfold Spec.firstFailure.
    destruct (truthy (trim (Form.escrowBuyerAddress (formData s))));
      [| discriminate].
    destruct (validateSuiAddress (Form.escrowBuyerAddress (formData s)));
      discriminate. }
  split; [exact H1 | split; [exact H2 | split]].
  - intros [E | E]; apply H1; rewrite E; unfold aboveZero;
      intros [_ C]; vm_compute in C; discriminate C.
  - intros E C.
    assert (A : aboveZero (Form.price (formData s))).
    { rewrite E. split; [discriminate | vm_compute; reflexivity]. }
    unfold validateForm in C.
    destruct (isNull (selectedImage s) || falsyOpt (imagePreview s));
      [apply (f_equal snd), record_message_inj in C; discriminate C |].
    destruct (negb (truthy (trim (Form.title (formData s)))));
      [apply (f_equal snd), record_message_inj in C; discriminate C |].
    destruct (negb (truthy (trim (Form.description (formData s)))));
      [apply (f_equal snd), record_message_inj in C; discriminate C |].
    rewrite E in C.
    replace (negb (truthy "0.01") || leb (parseFloat "0.01") zero)
      with false in C by (vm_compute; reflexivity).
    destruct (ListingType_eqb (Form.listingType (formData s)) escrow);
      [| discriminate C].
    destruct (negb (truthy (trim (Form.escrowBuyerAddress (formData s)))));
      [apply (f_equal snd), record_message_inj in C; discriminate C |].
    destruct (negb (validateSuiAddress
                      (Form.escrowBuyerAddress (formData s))));
      [apply (f_equal snd), record_message_inj in C; discriminate C |].
    discriminate C.
Qed.

Lemma price_rule_on_field_values_witness :
  let w := Samples.filled (Samples.form "0" standard "") in
  numberInputValue "0"
  /\ validateForm (state w) w = priceRejection w.
Proof.
  intros w.
  assert (H : numberInputValue (Form.price (formData (state w))))
    by (right; reflexivity).
  split; [exact H |].
  apply (proj1 (proj2 (price_rule_on_field_values (state w) w H))
           eq_refl eq_refl eq_refl eq_refl).
  unfold aboveZero. intros [_ C]. vm_compute in C. discriminate C.
Defined.

End PriceFieldFacts.
